(** * Driplytics: the ensemble price predictor

    A shallow embedding of [ml_service/ensemble_price_predictor.py]
    (class [EnsemblePricePredictor]) and of the parts of its collaborators
    that the fusion depends on.

    Numbers.  The Python code computes with binary floating point; here
    every float is an exact rational of [Q], and [==] is equality of
    rationals.  Decimal constants of the source ([0.35], [1.1], ...) are
    the rationals they denote.  [np.sqrt], which has no rational
    counterpart, is a parameter of the fusion section.

    Collaborators.  Network and file-system calls (Reddit, Google Trends,
    the Groq LLM, the StockX data set, the clock) are fields of a [World]
    record: each returns what the Python call returns, with [None] where
    the Python call raises and the caller's [except] takes over.

    Exceptions.  [predict_best_price] runs inside a [try] whose [except]
    turns any exception into a failure dict.  What can raise there is
    the conversion of an ill-typed value of the request and the fusion
    on an ill-typed answer of the LLM; both are part of the data
    ([Request.ill_typed], [Groq.IllTyped]) and are threaded through the
    orchestrator by the [Raises] monad. *)

From Stdlib Require Import QArith Qround Qabs Qminmax ZArith String List Bool Lia Lqa.
Import ListNotations.
Local Open Scope string_scope.
Local Open Scope list_scope.
Local Open Scope Q_scope.

(** ** Python built-ins on numbers *)

Module Py.

(** [x > y] and [x < y] on floats. *)
Definition gt (x y : Q) : bool :=
  match x ?= y with Gt => true | _ => false end.
Definition lt (x y : Q) : bool := gt y x.

(** [max(a, b)] keeps its first argument unless the second is strictly
    greater; [min(a, b)] likewise with strictly smaller. *)
Definition max (a b : Q) : Q := if gt b a then b else a.
Definition min (a b : Q) : Q := if lt b a then b else a.

(** Truth value of a float: every float but zero is true. *)
Definition truthy (x : Q) : bool := negb (Qeq_bool x 0).

(** [sum(xs)]: left to right, from [0]. *)
Definition sum (xs : list Q) : Q := fold_left Qplus xs 0.

(** [round(x, ndigits)]: to the nearest multiple of [10^-ndigits], a tie
    going to the even neighbour. *)
Definition round_half_even (x : Q) : Z :=
  let f := Qfloor x in
  match ((x - inject_Z f) ?= (1 # 2))%Q with
  | Lt => f
  | Gt => (f + 1)%Z
  | Eq => if Z.even f then f else (f + 1)%Z
  end.

Definition round (x : Q) (ndigits : nat) : Q :=
  let scale := inject_Z (10 ^ Z.of_nat ndigits) in
  inject_Z (round_half_even (x * scale)) / scale.

End Py.

(** [np.mean] of a one-dimensional array. *)
Definition np_mean (xs : list Q) : Q :=
  Py.sum xs / inject_Z (Z.of_nat (List.length xs)).

(** A dict in insertion order, and [d.get(k)] / [k in d]. *)
Fixpoint lookup {A : Type} (k : string) (d : list (string * A)) : option A :=
  match d with
  | [] => None
  | (k', v) :: d' => if String.eqb k k' then Some v else lookup k d'
  end.

Definition keys {A : Type} (d : list (string * A)) : list string := map fst d.

(** ** Data *)

(** One entry of the dict returned by [predict_with_ml_models]. *)
Module MLPred.
Record t := mk {
  predicted_price : Q;
  confidence : Q;
  weight : Q;
  model_type : string }.
End MLPred.

(** One point of the forecast list of [get_sneaker_price_history]. *)
Module Forecast.
Record t := mk {
  predicted_price : Q;
  lower_bound : Q;
  upper_bound : Q }.
End Forecast.

(** The dict returned by [time_series.get_sneaker_price_history], reduced
    to the keys [predict_with_prophet] reads.  An error dict has
    [success = false] and no forecast. *)
Module History.
Record t := mk {
  success : bool;
  forecast : list Forecast.t;
  forecast_model : option string;
  data_points : option nat }.
End History.

(** The dict returned by [EnsemblePricePredictor.predict_with_prophet]. *)
Module Prophet.
Record t := mk {
  predicted_price_7d : option Q;
  predicted_price_14d : option Q;
  predicted_price_30d : option Q;
  lower_bound : option Q;
  upper_bound : option Q;
  confidence : Q;
  weight : Q;
  model_type : string;
  historical_data_points : nat }.
End Prophet.

(** The dict returned by [get_sentiment_adjustment]. *)
Module Sentiment.
Record t := mk {
  sentiment_score : Q;
  hype_score : Q;
  adjustment_factor : Q;
  sample_size : nat;
  source : string;
  weight : Q;
  model_type : string }.
End Sentiment.

(** The dict returned by [get_trends_adjustment]. *)
Module Trends.
Record t := mk {
  current_interest : Q;
  avg_interest : Q;
  trend_direction : string;
  adjustment_factor : Q;
  weight : Q;
  model_type : string }.
End Trends.

(** The dict returned by [get_groq_analysis]: the JSON object of the LLM,
    any of whose keys may be missing, with [weight] and [model_type]
    added. *)
Module Groq.
Record t := mk {
  adjusted_price : option Q;
  confidence : option Q;
  market_insight : option string;
  weight : Q;
  model_type : string }.

(** What [get_groq_analysis] hands to the fusion: an analysis whose
    [adjusted_price] and [confidence], when present, are numbers, or one
    in which either is something else (null, a string, a list).  The
    fusion compares the confidence with 0.6 and rounds the price, so on
    the latter it raises a [TypeError], whose message is kept. *)
Inductive answer :=
| Typed (analysis : t)
| IllTyped (message : string).

(** Whether the fusion can read what it is handed; no analysis at all
    is read as such. *)
Definition well_typed (groq_analysis : option answer) : bool :=
  match groq_analysis with
  | Some (IllTyped _) => false
  | _ => true
  end.
End Groq.

(** What the sentiment analyzer returns for a sneaker. *)
Module Analysis.
Record t := mk {
  overall_sentiment : option Q;
  hype_score : option Q }.
End Analysis.

(** What [LiveGoogleTrends.get_live_interest] returns; its error dict has
    none of the three keys. *)
Module Interest.
Record t := mk {
  current_interest : option Q;
  avg_interest : option Q;
  trend_direction : option string }.
End Interest.

(** A Reddit post, by its title. *)
Definition Post := string.

(** The request dict [data].  A field is [None] when its key is missing.
    [retail_price] and [shoe_size] hold the number that [float(...)]
    reads and [brand] the string that [.strip()] is called on; when a
    value under one of these three keys is of another type (null, a word
    where a number is due, a list), the conversion raises, and
    [ill_typed] is the message of that exception.  It is [None] for a
    request whose values have the types of their fields.  Floats are
    read as rationals, so a request that holds a NaN or an infinity is
    not among these. *)
Module Request.
Record t := mk {
  sneaker_name : option string;
  name : option string;
  retail_price : option Q;
  brand : option string;
  release_date : option string;
  shoe_size : option Q;
  region : option string;
  ill_typed : option string }.
End Request.

(** The release date of a request read against the clock:
    [(order_date - release_dt).days], [release_dt.year],
    [release_dt.month], [order_date.month], [order_date.weekday()]. *)
Module Dates.
Record t := mk {
  days : Z;
  release_year : Z;
  release_month : Z;
  order_month : Z;
  order_weekday : Z }.
End Dates.

(** The collaborators of one request. *)
Module World.
Record t := mk {
  calendar : option string -> Dates.t;
  get_sneaker_price_history : string -> option History.t;
  search_sneaker : string -> option (list Post);
  get_live_interest : string -> option Interest.t;
  get_groq_analysis :
    Request.t -> list (string * MLPred.t) -> option Groq.answer }.
End World.

(** A regression model: [model.predict(features)[0]]. *)
Definition Model := list Q -> Q.

(** The predictor object [self]. *)
Record EnsemblePricePredictor := {
  models : list (string * Model);
  scaler : list Q -> option (list Q);
  brand_encoder : string -> option Q;
  region_encoder : string -> option Q;
  region_classes : nat;
  loaded : bool }.

Definition or_default {A : Type} (o : option A) (d : A) : A :=
  match o with Some a => a | None => d end.

(** ** Feature preparation *)

Definition encode_brand (self : EnsemblePricePredictor) (brand : string) : Q :=
  or_default (brand_encoder self brand) 1.

Definition encode_region (self : EnsemblePricePredictor) (region : string) : Q :=
  or_default (region_encoder self region)
             (inject_Z (Z.of_nat (region_classes self) / 2)%Z).

(** The single row [features[0]] of the feature matrix. *)
Definition prepare_features (self : EnsemblePricePredictor) (w : World.t)
    (data : Request.t) : list Q :=
  let brand := or_default (Request.brand data) "Yeezy" in
  let retail_price := or_default (Request.retail_price data) 220 in
  let shoe_size := or_default (Request.shoe_size data) 10 in
  let region := or_default (Request.region data) "California" in
  let d := World.calendar w (Request.release_date data) in
  let days_since_release := Z.max 0 (Dates.days d) in
  [ encode_brand self brand;
    encode_region self region;
    retail_price;
    shoe_size;
    inject_Z days_since_release;
    inject_Z (Dates.release_year d);
    inject_Z (Dates.release_month d);
    inject_Z (Dates.order_month d);
    inject_Z (Dates.order_weekday d) ].

(** ** Regression models *)

(** [retail_est = features[0][2] if len(features[0]) > 2 else 200]. *)
Definition retail_est (features : list Q) : Q :=
  or_default (nth_error features 2) 200.

(** The guard [pred > 0 and pred < retail_est * 5] of the linear models. *)
Definition reasonable (pred : Q) (features : list Q) : bool :=
  Py.gt pred 0 && Py.lt pred (retail_est features * 5).

(** A tree model: always emitted, clamped below at zero. *)
Definition tree_prediction (self : EnsemblePricePredictor) (features : list Q)
    (key : string) (conf wt : Q) (ty : string)
    (predictions : list (string * MLPred.t)) : list (string * MLPred.t) :=
  match lookup key (models self) with
  | Some m =>
      predictions ++ [(key, MLPred.mk (Py.max 0 (m features)) conf wt ty)]
  | None => predictions
  end.

(** A linear model: queried on the scaled features, emitted only when its
    prediction is [reasonable]. *)
Definition linear_prediction (self : EnsemblePricePredictor)
    (features scaled_features : list Q)
    (key : string) (conf wt : Q) (ty : string)
    (predictions : list (string * MLPred.t)) : list (string * MLPred.t) :=
  match lookup key (models self) with
  | Some m =>
      let pred := m scaled_features in
      if reasonable pred features
      then predictions ++ [(key, MLPred.mk (Py.max 0 pred) conf wt ty)]
      else predictions
  | None => predictions
  end.

Definition predict_with_ml_models (self : EnsemblePricePredictor)
    (features : list Q) : list (string * MLPred.t) :=
  let predictions := [] in
  let predictions :=
    tree_prediction self features "random_forest" 0.93 0.35
                    "Tree-based Ensemble" predictions in
  let predictions :=
    tree_prediction self features "gradient_boosting" 0.91 0.30
                    "Boosted Trees" predictions in
  match scaler self features with
  | Some scaled_features =>
      let predictions :=
        linear_prediction self features scaled_features "ridge_regression"
                          0.75 0.10 "Regularized Linear" predictions in
      let predictions :=
        linear_prediction self features scaled_features "linear_regression"
                          0.72 0.05 "Linear Baseline" predictions in
      predictions
  | None => predictions
  end.

(** ** Time series *)

(** [forecast[-1]] of a list, when there is one. *)
Definition last_item {A : Type} (l : list A) : option A :=
  nth_error l (List.length l - 1).

Definition predict_with_prophet (w : World.t) (sneaker_name : string)
    (retail_price : Q) : option Prophet.t :=
  if String.eqb sneaker_name "" then None
  else
    match World.get_sneaker_price_history w sneaker_name with
    | Some history_result =>
        let forecast := History.forecast history_result in
        if History.success history_result
           && negb (Nat.eqb (List.length forecast) 0)
        then
          Some (Prophet.mk
                  (option_map Forecast.predicted_price (nth_error forecast 6))
                  (option_map Forecast.predicted_price (nth_error forecast 13))
                  (option_map Forecast.predicted_price (last_item forecast))
                  (option_map Forecast.lower_bound (last_item forecast))
                  (option_map Forecast.upper_bound (last_item forecast))
                  0.85
                  0.20
                  (or_default (History.forecast_model history_result)
                              "Time Series")
                  (or_default (History.data_points history_result) 0%nat))
        else None
    | None => None
    end.

(** ** Adjustments *)

Definition default_sentiment : Sentiment.t :=
  Sentiment.mk 0 50 1.0 0 "default" 0.05 "Sentiment Analysis".

(** [LiveSentimentAnalyzer().analyze_sneaker(sneaker_name, posts)]: the
    class has no method of this name, so the call raises an
    [AttributeError] whatever its arguments. *)
Definition analyze_sneaker (sneaker_name : string) (posts : list Post)
    : option Analysis.t :=
  None.

Definition get_sentiment_adjustment (w : World.t) (sneaker_name : string)
    : Sentiment.t :=
  match World.search_sneaker w sneaker_name with
  | Some (post :: rest) =>
      let posts := post :: rest in
      match analyze_sneaker sneaker_name posts with
      | Some analysis =>
          let sentiment_score :=
            or_default (Analysis.overall_sentiment analysis) 0 in
          let hype_score := or_default (Analysis.hype_score analysis) 50 in
          let adjustment_factor := 1.0 + sentiment_score * 0.10 in
          Sentiment.mk sentiment_score hype_score adjustment_factor
                       (List.length posts) "reddit" 0.10 "Sentiment Analysis"
      | None => default_sentiment
      end
  | _ => default_sentiment
  end.

Definition default_trends : Trends.t :=
  Trends.mk 50 50 "stable" 1.0 0.02 "Google Trends".

Definition get_trends_adjustment (w : World.t) (sneaker_name : string)
    : Trends.t :=
  match World.get_live_interest w sneaker_name with
  | Some interest_data =>
      let current_interest :=
        or_default (Interest.current_interest interest_data) 50 in
      let avg_interest :=
        or_default (Interest.avg_interest interest_data) 50 in
      let trend_direction :=
        or_default (Interest.trend_direction interest_data) "stable" in
      let adjustment_factor :=
        if String.eqb trend_direction "rising"
        then 1.0 + (current_interest - avg_interest) / 200
        else if String.eqb trend_direction "falling"
        then 1.0 - (avg_interest - current_interest) / 200
        else 1.0 in
      Trends.mk current_interest avg_interest trend_direction
                (Py.min 1.2 (Py.max 0.8 adjustment_factor))
                0.05 "Google Trends"
  | None => default_trends
  end.

(** ** Fusion *)

(** An entry of [model_breakdown].  The display name of a regression
    model is derived from its key; the key stands for it here. *)
Inductive Breakdown :=
| BModel (model type : string) (predicted_price confidence weight : Q)
| BProphet (type : string) (predicted_price confidence weight : Q)
           (forecast_7d forecast_14d forecast_30d : option Q)
| BGroq (type : string) (predicted_price confidence weight : Q)
        (market_insight : string)
| BSentiment (type : string)
             (adjustment_factor hype_score sentiment_score : Q)
             (source : string) (sample_size : nat)
| BTrends (type : string) (adjustment_factor current_interest : Q)
          (trend_direction : string).

(** The three accumulators of [calculate_ensemble_prediction]. *)
Record Acc := {
  all_predictions : list (Q * Q);
  total_weight : Q;
  model_breakdown : list Breakdown }.

Definition acc0 : Acc := Build_Acc [] 0 [].

(** One turn of [for model_name, pred in ml_predictions.items()]. *)
Definition add_ml (acc : Acc) (item : string * MLPred.t) : Acc :=
  let (model_name, pred) := item in
  let price := MLPred.predicted_price pred in
  let weight := MLPred.weight pred in
  let confidence := MLPred.confidence pred in
  Build_Acc
    (all_predictions acc ++ [(price, weight * confidence)])
    (total_weight acc + weight * confidence)
    (model_breakdown acc
       ++ [BModel model_name (MLPred.model_type pred) (Py.round price 2)
                  confidence weight]).

(** [if prophet_prediction and prophet_prediction.get('predicted_price_30d')]. *)
Definition add_prophet (acc : Acc) (prophet_prediction : option Prophet.t)
    : Acc :=
  match prophet_prediction with
  | Some p =>
      match Prophet.predicted_price_30d p with
      | Some price =>
          if Py.truthy price then
            let weight := Prophet.weight p in
            let confidence := Prophet.confidence p in
            Build_Acc
              (all_predictions acc ++ [(price, weight * confidence)])
              (total_weight acc + weight * confidence)
              (model_breakdown acc
                 ++ [BProphet (Prophet.model_type p) (Py.round price 2)
                              confidence weight
                              (Prophet.predicted_price_7d p)
                              (Prophet.predicted_price_14d p)
                              (Prophet.predicted_price_30d p)])
          else acc
      | None => acc
      end
  | None => acc
  end.

Definition collect (ml_predictions : list (string * MLPred.t))
    (prophet_prediction : option Prophet.t) : Acc :=
  add_prophet (fold_left add_ml ml_predictions acc0) prophet_prediction.

(** The base ensemble price of an accumulator. *)
Definition ensemble_price_of (acc : Acc) (retail_price : Q) : Q :=
  if Py.gt (total_weight acc) 0
  then Py.sum (map (fun pw => fst pw * snd pw) (all_predictions acc))
       / total_weight acc
  else retail_price * 1.1.

Definition ensemble_price (ml_predictions : list (string * MLPred.t))
    (prophet_prediction : option Prophet.t) (retail_price : Q) : Q :=
  ensemble_price_of (collect ml_predictions prophet_prediction) retail_price.

(** The price after the sentiment and trend factors. *)
Definition adjusted_price (ensemble_price : Q) (sentiment : Sentiment.t)
    (trends : Trends.t) : Q :=
  let sentiment_adjusted_price :=
    ensemble_price * Sentiment.adjustment_factor sentiment in
  sentiment_adjusted_price * Trends.adjustment_factor trends.

(** The LLM step: the price it proposes and its confidence, and the
    blend when it is confident. *)
Definition llm_price (g : Groq.t) (final_price : Q) : Q :=
  or_default (Groq.adjusted_price g) final_price.

Definition llm_confidence (g : Groq.t) : Q :=
  or_default (Groq.confidence g) 0.5.

Definition blend_llm (final_price : Q) (groq_analysis : option Groq.t) : Q :=
  match groq_analysis with
  | Some g =>
      if Py.gt (llm_confidence g) 0.6
      then final_price * 0.9 + llm_price g final_price * 0.1
      else final_price
  | None => final_price
  end.

Definition final_price_of (ensemble_price : Q) (sentiment : Sentiment.t)
    (trends : Trends.t) (groq_analysis : option Groq.t) : Q :=
  blend_llm (adjusted_price ensemble_price sentiment trends) groq_analysis.

Definition groq_breakdown (final_price : Q) (groq_analysis : option Groq.t)
    : list Breakdown :=
  match groq_analysis with
  | Some g =>
      [BGroq (Groq.model_type g) (Py.round (llm_price g final_price) 2)
             (llm_confidence g) 0.10
             (or_default (Groq.market_insight g) "")]
  | None => []
  end.

(** The dict returned by [calculate_ensemble_prediction]. *)
Module Ensemble.
Record t := mk {
  best_predicted_price : Q;
  low : Q;
  mid : Q;
  high : Q;
  price_change : Q;
  price_change_percent : Q;
  overall_confidence : Q;
  models_used : nat;
  model_breakdown : list Breakdown;
  sentiment_factor : Q;
  trends_factor : Q;
  combined_adjustment : Q }.
End Ensemble.

Section Fusion.

(** [np.sqrt]. *)
Variable np_sqrt : Q -> Q.

(** [np.std]: the population standard deviation. *)
Definition np_std (xs : list Q) : Q :=
  let m := np_mean xs in
  np_sqrt (np_mean (map (fun x => (x - m) * (x - m)) xs)).

Definition price_std_of (predictions_list : list Q) (final_price : Q) : Q :=
  if (1 <? List.length predictions_list)%nat
  then np_std predictions_list
  else final_price * 0.1.

(** The local variable [overall_confidence], before it is rounded. *)
Definition overall_confidence_of (predictions_list : list Q)
    (price_std : Q) : Q :=
  if (1 <? List.length predictions_list)%nat
  then
    let cv := price_std / np_mean predictions_list in
    Py.max 0.6 (Py.min 0.95 (1 - cv))
  else 0.80.

Definition calculate_ensemble_prediction
    (ml_predictions : list (string * MLPred.t))
    (prophet_prediction : option Prophet.t)
    (sentiment : Sentiment.t) (trends : Trends.t)
    (groq_analysis : option Groq.t) (retail_price : Q) : Ensemble.t :=
  let acc := collect ml_predictions prophet_prediction in
  let ensemble_price := ensemble_price_of acc retail_price in
  let adjusted := adjusted_price ensemble_price sentiment trends in
  let final_price := blend_llm adjusted groq_analysis in
  let model_breakdown :=
    model_breakdown acc
      ++ groq_breakdown adjusted groq_analysis
      ++ [BSentiment (Sentiment.model_type sentiment)
                     (Py.round (Sentiment.adjustment_factor sentiment) 3)
                     (Sentiment.hype_score sentiment)
                     (Py.round (Sentiment.sentiment_score sentiment) 3)
                     (Sentiment.source sentiment)
                     (Sentiment.sample_size sentiment)]
      ++ [BTrends (Trends.model_type trends)
                  (Py.round (Trends.adjustment_factor trends) 3)
                  (Trends.current_interest trends)
                  (Trends.trend_direction trends)] in
  let predictions_list := map fst (all_predictions acc) in
  let price_std := price_std_of predictions_list final_price in
  let overall_confidence :=
    overall_confidence_of predictions_list price_std in
  let price_change := final_price - retail_price in
  let price_change_pct :=
    if Py.gt retail_price 0
    then (price_change / retail_price) * 100
    else 0 in
  Ensemble.mk
    (Py.round final_price 2)
    (Py.round (final_price - price_std) 2)
    (Py.round final_price 2)
    (Py.round (final_price + price_std) 2)
    (Py.round price_change 2)
    (Py.round price_change_pct 2)
    (Py.round overall_confidence 2)
    (List.length model_breakdown)
    model_breakdown
    (Py.round (Sentiment.adjustment_factor sentiment) 3)
    (Py.round (Trends.adjustment_factor trends) 3)
    (Py.round (Sentiment.adjustment_factor sentiment
               * Trends.adjustment_factor trends) 3).

End Fusion.

(** ** Recommendation *)

(** The dict returned by [get_recommendation]; the emoji of each tier and
    the emoji that opens a confidence note are display only and left
    out. *)
Module Recommendation.
Record t := mk {
  action : string;
  description : string;
  risk_level : string;
  confidence_note : string }.
End Recommendation.

Definition get_recommendation (price_change_pct confidence : Q)
    : Recommendation.t :=
  let confidence_note :=
    if Py.lt confidence 0.7
    then "Low confidence - limited historical data"
    else if Py.gt confidence 0.9
    then "High confidence prediction"
    else "" in
  if Py.gt price_change_pct 75 then
    Recommendation.mk "STRONG BUY"
      "Exceptional investment - High resale potential" "Low" confidence_note
  else if Py.gt price_change_pct 40 then
    Recommendation.mk "BUY"
      "Great investment opportunity" "Low-Medium" confidence_note
  else if Py.gt price_change_pct 15 then
    Recommendation.mk "CONSIDER BUYING"
      "Good resale value potential" "Medium" confidence_note
  else if Py.gt price_change_pct 0 then
    Recommendation.mk "HOLD"
      "Modest appreciation expected" "Medium" confidence_note
  else if Py.gt price_change_pct (-15) then
    Recommendation.mk "CAUTION"
      "May not appreciate significantly" "Medium-High" confidence_note
  else
    Recommendation.mk "AVOID"
      "Expected to depreciate" "High" confidence_note.

(** ** Orchestration *)

(** The dict returned by [predict_best_price]: either
    [{'success': True, 'input': ..., 'prediction': ..., 'recommendation': ...,
    'metadata': ...}] or [{'success': False, 'error': ...}].  The timing
    metadata is left out. *)
Inductive Response :=
| Success (sneaker_name : string) (retail_price : Q)
          (prediction : Ensemble.t) (recommendation : Recommendation.t)
| Failure (error : string).

Definition success (r : Response) : bool :=
  match r with Success _ _ _ _ => true | Failure _ => false end.

Definition error (r : Response) : option string :=
  match r with Success _ _ _ _ => None | Failure e => Some e end.

Definition prediction (r : Response) : option Ensemble.t :=
  match r with Success _ _ p _ => Some p | Failure _ => None end.

Definition recommendation (r : Response) : option Recommendation.t :=
  match r with Success _ _ _ rec => Some rec | Failure _ => None end.

Definition disabled_sentiment : Sentiment.t :=
  Sentiment.mk 0 50 1.0 0 "disabled" 0 "Disabled".

Definition disabled_trends : Trends.t :=
  Trends.mk 50 50 "stable" 1.0 0 "Disabled".

Definition request_name (data : Request.t) : string :=
  match Request.sneaker_name data with
  | Some s => s
  | None => or_default (Request.name data) ""
  end.

(** The body of a [try]: the value it returns, or the message [str(e)]
    of the exception it raises. *)
Inductive Raises (A : Type) :=
| Returns (a : A)
| Raised (message : string).

Arguments Returns {A} a.
Arguments Raised {A} message.

Definition bind {A B : Type} (c : Raises A) (k : A -> Raises B) : Raises B :=
  match c with
  | Returns a => k a
  | Raised message => Raised message
  end.

Notation "x <- c ;; k" := (bind c (fun x => k))
  (at level 61, c at next level, right associativity).

(** The conversions of the request's values: [float(...)] of the retail
    price, here and again in [prepare_features], [float(...)] of the shoe
    size and [.strip()] of the brand. *)
Definition converted (data : Request.t) : Raises Request.t :=
  match Request.ill_typed data with
  | Some message => Raised message
  | None => Returns data
  end.

Section Orchestrator.

Variable np_sqrt : Q -> Q.

(** [calculate_ensemble_prediction] on what [get_groq_analysis] returned:
    on an ill-typed analysis the comparison [llm_confidence > 0.6] or the
    rounding [round(llm_price, 2)] raises. *)
Definition fused (ml_predictions : list (string * MLPred.t))
    (prophet_prediction : option Prophet.t)
    (sentiment : Sentiment.t) (trends : Trends.t)
    (groq_analysis : option Groq.answer) (retail_price : Q)
    : Raises Ensemble.t :=
  match groq_analysis with
  | Some (Groq.IllTyped message) => Raised message
  | Some (Groq.Typed analysis) =>
      Returns (calculate_ensemble_prediction np_sqrt ml_predictions
                 prophet_prediction sentiment trends (Some analysis)
                 retail_price)
  | None =>
      Returns (calculate_ensemble_prediction np_sqrt ml_predictions
                 prophet_prediction sentiment trends None retail_price)
  end.

(** The [try] block of [predict_best_price]. *)
Definition attempt (self : EnsemblePricePredictor) (w : World.t)
    (data : Request.t)
    (include_sentiment include_trends include_groq : bool)
    : Raises Response :=
  let sneaker_name := request_name data in
  typed <- converted data ;;
  let retail_price := or_default (Request.retail_price typed) 220 in
  let features := prepare_features self w typed in
  let ml_predictions := predict_with_ml_models self features in
  let prophet_prediction :=
    predict_with_prophet w sneaker_name retail_price in
  let sentiment :=
    if include_sentiment then get_sentiment_adjustment w sneaker_name
    else disabled_sentiment in
  let trends :=
    if include_trends then get_trends_adjustment w sneaker_name
    else disabled_trends in
  let groq_analysis :=
    if include_groq then World.get_groq_analysis w data ml_predictions
    else None in
  ensemble_result <-
    fused ml_predictions prophet_prediction sentiment trends groq_analysis
          retail_price ;;
  let recommendation :=
    get_recommendation (Ensemble.price_change_percent ensemble_result)
                       (Ensemble.overall_confidence ensemble_result) in
  Returns (Success sneaker_name retail_price ensemble_result recommendation).

(** [predict_best_price]: the guard on [self.loaded], and the [try]
    whose [except Exception] answers [{'success': False, 'error': str(e)}]. *)
Definition predict_best_price (self : EnsemblePricePredictor) (w : World.t)
    (data : Request.t)
    (include_sentiment include_trends include_groq : bool) : Response :=
  if negb (loaded self) then
    Failure "Models not loaded. Run train_model.py first."
  else
    match attempt self w data include_sentiment include_trends
                  include_groq with
    | Returns result => result
    | Raised message => Failure message
    end.

End Orchestrator.

(** The [groq_analysis] of a request: what [get_groq_analysis] returns
    when the LLM is asked, and [None] when it is not. *)
Definition groq_answer (self : EnsemblePricePredictor) (w : World.t)
    (data : Request.t) (include_groq : bool) : option Groq.answer :=
  if include_groq
  then World.get_groq_analysis w data
         (predict_with_ml_models self (prepare_features self w data))
  else None.

(** A request whose values have the types the code converts. *)
Definition well_typed (data : Request.t) : bool :=
  match Request.ill_typed data with Some _ => false | None => true end.


(** ** The fusion, as a sum over its sources *)

(** The sum of a list, by recursion on the list. *)
Definition sumQ (xs : list Q) : Q := fold_right Qplus 0 xs.

(** A price-bearing source: its price, weight and confidence. *)
Record Source := {
  src_price : Q;
  src_weight : Q;
  src_confidence : Q }.

Definition effective_weight (s : Source) : Q :=
  src_weight s * src_confidence s.

Definition ml_source (item : string * MLPred.t) : Source :=
  Build_Source (MLPred.predicted_price (snd item))
               (MLPred.weight (snd item))
               (MLPred.confidence (snd item)).

(** The forecast is a source when its 30-day price is there and not zero. *)
Definition prophet_sources (prophet_prediction : option Prophet.t)
    : list Source :=
  match prophet_prediction with
  | Some p =>
      match Prophet.predicted_price_30d p with
      | Some price =>
          if Py.truthy price
          then [Build_Source price (Prophet.weight p) (Prophet.confidence p)]
          else []
      | None => []
      end
  | None => []
  end.

Definition price_sources (ml_predictions : list (string * MLPred.t))
    (prophet_prediction : option Prophet.t) : list Source :=
  map ml_source ml_predictions ++ prophet_sources prophet_prediction.

Definition source_pair (s : Source) : Q * Q :=
  (src_price s, effective_weight s).

(** The least and the greatest of a list of prices ([0] for no price). *)
Fixpoint Qlist_min (xs : list Q) : Q :=
  match xs with
  | [] => 0
  | x :: rest => match rest with [] => x | _ => Qmin x (Qlist_min rest) end
  end.

Fixpoint Qlist_max (xs : list Q) : Q :=
  match xs with
  | [] => 0
  | x :: rest => match rest with [] => x | _ => Qmax x (Qlist_max rest) end
  end.

(** Two regression sources, priced 300 and 280. *)
Definition scenario_ml : list (string * MLPred.t) :=
  [ ("random_forest", MLPred.mk 300 0.93 0.35 "Tree-based Ensemble");
    ("gradient_boosting", MLPred.mk 280 0.91 0.30 "Boosted Trees") ].

(** [clamp(x, lo, hi)], as the specification writes the confidence. *)
Definition clamp (x lo hi : Q) : Q := Qmax lo (Qmin hi x).

(** ** Worked instances *)

(** A square root to six decimals, to run the fusion on numbers. *)
Definition sqrt6 (x : Q) : Q :=
  Z.sqrt (Qnum x * 10 ^ 12 / Zpos (Qden x)) # 10 ^ 6.

(** A loaded predictor whose four models answer 300, 280, five times the
    retail price and 4.999 times the retail price, whatever the
    features. *)
Definition demo_predictor : EnsemblePricePredictor :=
  {| models :=
       [ ("random_forest", fun _ => 300);
         ("gradient_boosting", fun _ => 280);
         ("linear_regression", fun fs => 4.999 * retail_est fs);
         ("ridge_regression", fun fs => 5 * retail_est fs) ];
     scaler := fun fs => Some fs;
     brand_encoder := fun _ => Some 1;
     region_encoder := fun _ => None;
     region_classes := 12;
     loaded := true |}.

(** A world in which every collaborator is out of reach. *)
Definition silent_world : World.t :=
  World.mk (fun _ => Dates.mk 400 2023 1 11 2)
           (fun _ => None) (fun _ => None)
           (fun _ => None) (fun _ _ => None).

Definition demo_request : Request.t :=
  Request.mk (Some "Adidas Yeezy Boost 350 V2 Beluga") None (Some 220)
             (Some "Yeezy") (Some "2023-01-15") (Some 10)
             (Some "California") None.

(** A predictor left unloaded by [load_models]: the first model file is
    missing, so no model is stored and [loaded] stays false. *)
Definition unloaded_predictor : EnsemblePricePredictor :=
  {| models := [];
     scaler := fun _ => None;
     brand_encoder := fun _ => None;
     region_encoder := fun _ => None;
     region_classes := 0;
     loaded := false |}.

(** A loaded predictor whose random forest answers 1500. *)
Definition outlier_predictor : EnsemblePricePredictor :=
  {| models :=
       [ ("random_forest", fun _ => 1500);
         ("gradient_boosting", fun _ => 280) ];
     scaler := fun fs => Some fs;
     brand_encoder := fun _ => Some 1;
     region_encoder := fun _ => Some 3;
     region_classes := 12;
     loaded := true |}.

(** A world whose search interest is rising: 100 now, 40 on average. *)
Definition rising_world : World.t :=
  World.mk (fun _ => Dates.mk 400 2023 1 11 2)
           (fun _ => None) (fun _ => None)
           (fun _ => Some (Interest.mk (Some 100) (Some 40) (Some "rising")))
           (fun _ _ => None).

(** A world with two Reddit posts about every sneaker. *)
Definition hyped_world : World.t :=
  World.mk (fun _ => Dates.mk 400 2023 1 11 2)
           (fun _ => None)
           (fun _ => Some ["these are fire"; "must cop"])
           (fun _ => None) (fun _ _ => None).

(** A world with five days of sales history and a 30-day forecast that
    ends at 310. *)
Definition short_history_world : World.t :=
  World.mk (fun _ => Dates.mk 400 2023 1 11 2)
           (fun _ =>
              Some (History.mk true
                      (repeat (Forecast.mk 305 280 330) 29
                       ++ [Forecast.mk 310 285 335])
                      (Some "Linear Trend") (Some 5%nat)))
           (fun _ => None)
           (fun _ => None) (fun _ _ => None).

(** ** The specification's wording, for comparison *)

(** The six tiers. *)
Inductive Tier := StrongBuy | Buy | Consider | Hold | Caution | Avoid.

(** The tier an action label of [get_recommendation] stands for. *)
Definition tier_of_action (action : string) : option Tier :=
  if String.eqb action "STRONG BUY" then Some StrongBuy
  else if String.eqb action "BUY" then Some Buy
  else if String.eqb action "CONSIDER BUYING" then Some Consider
  else if String.eqb action "HOLD" then Some Hold
  else if String.eqb action "CAUTION" then Some Caution
  else if String.eqb action "AVOID" then Some Avoid
  else None.

(** The price-bearing sources as the specification counts them: every
    regression prediction, and the 30-day forecast whenever there is
    one. *)
Definition spec_sources (ml_predictions : list (string * MLPred.t))
    (prophet_prediction : option Prophet.t) : list Source :=
  map ml_source ml_predictions
  ++ match prophet_prediction with
     | Some p =>
         match Prophet.predicted_price_30d p with
         | Some price =>
             [Build_Source price (Prophet.weight p) (Prophet.confidence p)]
         | None => []
         end
     | None => []
     end.

(** The base estimate of the specification over these sources. *)
Definition spec_base_estimate (ml_predictions : list (string * MLPred.t))
    (prophet_prediction : option Prophet.t) (retail_price : Q) : Q :=
  let srcs := spec_sources ml_predictions prophet_prediction in
  let total_weight := sumQ (map effective_weight srcs) in
  if Py.gt total_weight 0
  then sumQ (map (fun s => src_price s * effective_weight s) srcs)
       / total_weight
  else retail_price * 1.1.

(** The tier of a percentage, as [get_recommendation] labels it. *)
Definition tier (price_change_pct confidence : Q) : option Tier :=
  tier_of_action
    (Recommendation.action (get_recommendation price_change_pct confidence)).

(** The specification's bands: each includes its lower bound and stops
    short of its upper bound. *)
Definition spec_tier (x : Q) : Tier :=
  if Qle_bool 75 x then StrongBuy
  else if Qle_bool 40 x then Buy
  else if Qle_bool 15 x then Consider
  else if Qle_bool 0 x then Hold
  else if Qle_bool (-15) x then Caution
  else Avoid.

(** The specification's forecast confidence: 0.85 from 30 historical
    observations on, 0.70 below. *)
Definition spec_forecast_confidence (observations : nat) : Q :=
  if (30 <=? observations)%nat then 0.85 else 0.70.

(** The specification's error kind for a request with no price source. *)
Definition NoComputablePrice : string := "NoComputablePrice".

(** ** Loading the models *)

(** The pickles under [models/]: each is what [joblib.load] returns, or
    [None] when it raises.  The region encoder comes with the number of
    its classes; of the feature columns and the training metadata only
    the presence matters here. *)
Module Files.
Record t := mk {
  random_forest_model : option Model;
  gradient_boosting_model : option Model;
  linear_regression_model : option Model;
  ridge_regression_model : option Model;
  brand_encoder : option (string -> option Q);
  region_encoder : option ((string -> option Q) * nat);
  scaler : option (list Q -> option (list Q));
  feature_columns : bool;
  training_metadata : bool }.
End Files.

(** A predictor whose loading stopped early.  An attribute that was never
    set answers as its reader's [except] branch sees it: a missing scaler
    or encoder fails on every input. *)
Definition stopped (models : list (string * Model))
    (brand region : string -> option Q) (classes : nat)
    : EnsemblePricePredictor :=
  {| models := models;
     scaler := fun _ => None;
     brand_encoder := brand;
     region_encoder := region;
     region_classes := classes;
     loaded := false |}.

Definition optional_model (key : string) (file : option Model)
    (models : list (string * Model)) : list (string * Model) :=
  match file with
  | Some m => models ++ [(key, m)]
  | None => models
  end.

(** [__init__] followed by [load_models]: the first failing load, other
    than of the two optional linear models, ends it with [loaded = False]
    and whatever was stored by then. *)
Definition load_models (files : Files.t) : EnsemblePricePredictor :=
  let absent : string -> option Q := fun _ => None in
  match Files.random_forest_model files with
  | None => stopped [] absent absent 0
  | Some rf =>
      let models := [("random_forest", rf)] in
      match Files.gradient_boosting_model files with
      | None => stopped models absent absent 0
      | Some gb =>
          let models := models ++ [("gradient_boosting", gb)] in
          let models :=
            optional_model "linear_regression"
                           (Files.linear_regression_model files) models in
          let models :=
            optional_model "ridge_regression"
                           (Files.ridge_regression_model files) models in
          match Files.brand_encoder files with
          | None => stopped models absent absent 0
          | Some brand =>
              match Files.region_encoder files with
              | None => stopped models brand absent 0
              | Some (region, classes) =>
                  match Files.scaler files with
                  | None => stopped models brand region classes
                  | Some sc =>
                      {| models := models;
                         scaler := sc;
                         brand_encoder := brand;
                         region_encoder := region;
                         region_classes := classes;
                         loaded := Files.feature_columns files
                                   && Files.training_metadata files |}
                  end
              end
          end
      end
  end.

(** ** The module-level singleton *)

(** The global [_predictor_instance] is threaded through: [None] before
    the first call. *)
Module Service.

Definition get_predictor (files : Files.t)
    (instance : option EnsemblePricePredictor)
    : EnsemblePricePredictor * option EnsemblePricePredictor :=
  match instance with
  | None => let p := load_models files in (p, Some p)
  | Some p => (p, instance)
  end.

(** The convenience function [predict_best_price(data, **kwargs)]. *)
Definition predict_best_price (np_sqrt : Q -> Q) (files : Files.t)
    (instance : option EnsemblePricePredictor) (w : World.t)
    (data : Request.t)
    (include_sentiment include_trends include_groq : bool)
    : Response * option EnsemblePricePredictor :=
  let (predictor, instance') := get_predictor files instance in
  (predict_best_price np_sqrt predictor w data include_sentiment
                      include_trends include_groq,
   instance').

End Service.

(** ** The HTTP endpoints *)

(** The JSON body of a prediction request: the keys the predictor reads,
    the three flags, and whether any other key is present. *)
Module Body.
Record t := mk {
  request : Request.t;
  include_sentiment : option bool;
  include_trends : option bool;
  include_groq : option bool;
  other_keys : bool }.

Definition is_none {A : Type} (o : option A) : bool :=
  match o with Some _ => false | None => true end.

(** [not data] for a JSON object: it has no key at all. *)
Definition empty (d : t) : bool :=
  is_none (Request.sneaker_name (request d))
  && is_none (Request.name (request d))
  && is_none (Request.retail_price (request d))
  && is_none (Request.brand (request d))
  && is_none (Request.release_date (request d))
  && is_none (Request.shoe_size (request d))
  && is_none (Request.region (request d))
  && is_none (Request.ill_typed (request d))
  && is_none (include_sentiment d)
  && is_none (include_trends d)
  && is_none (include_groq d)
  && negb (other_keys d).

(** What [request.get_json()] does: it returns [None] for the body
    [null], a dict for an object, and any other value (a number, a
    string, a list, a boolean), of which its truth value is kept together
    with the message of the [AttributeError] that calling [.get] on it
    raises; or it raises, on a body that is not JSON, and the message of
    that exception is kept. *)
Inductive json :=
| Null
| Object (d : t)
| Other (truthy : bool) (message : string)
| Unreadable (message : string).
End Body.

(** An entry of the batch answer. *)
Inductive BatchItem :=
| ItemOk (sneaker_name : string) (retail_price : Q)
         (best_predicted_price price_change_percent : Q)
         (recommendation : string) (confidence : Q)
| ItemError (sneaker_name : string) (error : string).

Module Http.
Inductive payload :=
| Prediction (result : Response)
| Error (error : string)
| Batch (predictions : list BatchItem) (count : nat).

Record t := mk { status : nat; body : payload }.
End Http.

Module App.

(** One turn of the batch loop. *)
Definition batch_item (np_sqrt : Q -> Q) (predictor : EnsemblePricePredictor)
    (w : World.t) (sneaker : Request.t) : BatchItem :=
  let name := or_default (Request.sneaker_name sneaker) "Unknown" in
  match predict_best_price np_sqrt predictor w sneaker false false false with
  | Success _ _ prediction recommendation =>
      ItemOk name
             (or_default (Request.retail_price sneaker) 0)
             (Ensemble.best_predicted_price prediction)
             (Ensemble.price_change_percent prediction)
             (Recommendation.action recommendation)
             (Ensemble.overall_confidence prediction)
  | Failure error => ItemError name error
  end.

(** [POST /predict-best-price]. *)
Definition predict_best_price (np_sqrt : Q -> Q) (files : Files.t)
    (instance : option EnsemblePricePredictor) (w : World.t)
    (data : Body.json) : Http.t * option EnsemblePricePredictor :=
  let no_data := (Http.mk 400 (Http.Error "No data provided"), instance) in
  match data with
  | Body.Null => no_data
  | Body.Other false _ => no_data
  | Body.Other true message => (Http.mk 500 (Http.Error message), instance)
  | Body.Unreadable message => (Http.mk 500 (Http.Error message), instance)
  | Body.Object d =>
      if Body.empty d then no_data
      else
        let include_sentiment := or_default (Body.include_sentiment d) true in
        let include_trends := or_default (Body.include_trends d) true in
        let include_groq := or_default (Body.include_groq d) true in
        let (result, instance') :=
          Service.predict_best_price np_sqrt files instance w
            (Body.request d) include_sentiment include_trends include_groq in
        if success result
        then (Http.mk 200 (Http.Prediction result), instance')
        else (Http.mk 500 (Http.Prediction result), instance')
  end.

(** [POST /predict-best-price/quick]. *)
Definition predict_best_price_quick (np_sqrt : Q -> Q) (files : Files.t)
    (instance : option EnsemblePricePredictor) (w : World.t)
    (data : Body.json) : Http.t * option EnsemblePricePredictor :=
  let no_data := (Http.mk 400 (Http.Error "No data provided"), instance) in
  match data with
  | Body.Null => no_data
  | Body.Other false _ => no_data
  | Body.Other true message =>
      (* the predictor is handed the value as it is: unless it is not
         loaded, its first [data.get] raises *)
      let (predictor, instance') := Service.get_predictor files instance in
      let result :=
        if negb (loaded predictor)
        then Failure "Models not loaded. Run train_model.py first."
        else Failure message in
      (Http.mk 500 (Http.Prediction result), instance')
  | Body.Unreadable message => (Http.mk 500 (Http.Error message), instance)
  | Body.Object d =>
      if Body.empty d then no_data
      else
        let (result, instance') :=
          Service.predict_best_price np_sqrt files instance w
            (Body.request d) false false false in
        if success result
        then (Http.mk 200 (Http.Prediction result), instance')
        else (Http.mk 500 (Http.Prediction result), instance')
  end.


End App.

(** ** The forecasters of [time_series.py] *)

Module TimeSeries.

(** A row of the frame handed to a forecaster: whether its date [ds] is a
    date, and its price [y] unless it is NaN. *)
Record Row := { ds : bool; y : option Q }.

(** What a forecaster returns: [success] is false when the key is
    missing, as in an error dict. *)
Record Result := {
  success : bool;
  forecast : list Forecast.t;
  model : option string;
  error : option string }.

Definition failed (message : string) : Result :=
  Build_Result false [] None (Some message).

(** [Series.dropna().values]. *)
Definition dropna (ys : list (option Q)) : list Q :=
  flat_map (fun o => match o with Some v => [v] | None => [] end) ys.

Section Forecasters.

(** [np.sqrt]. *)
Variable np_sqrt : Q -> Q.

(** [np.polyfit(x, prices, 1)] for [x = 0, 1, ...]: slope and intercept. *)
Variable polyfit : list Q -> Q * Q.

(** [np.random.seed(i); np.random.normal(0, scale)]. *)
Variable normal : nat -> Q -> Q.

(** Whether the [prophet] package could be imported. *)
Variable PROPHET_AVAILABLE : bool.

(** Fitting Prophet on the clean prices and predicting: the rows
    [(yhat, yhat_lower, yhat_upper)] of [forecast.tail(periods)], or
    [None] when Prophet raises. *)
Variable prophet : list Q -> nat -> option (list (Q * Q * Q)).

(** One point of the linear forecast, [i] days ahead. *)
Definition linear_point (slope intercept volatility : Q) (n i : nat)
    : Forecast.t :=
  let predicted := intercept + slope * inject_Z (Z.of_nat (n + i)) in
  let predicted := predicted + normal i (volatility * 0.1) in
  Forecast.mk (Py.round (Py.max 0 predicted) 2)
              (Py.round (Py.max 0 (predicted - volatility)) 2)
              (Py.round (predicted + volatility) 2).

(** [simple_forecast]; the frame is [None] when it has no column [y],
    and it always has a column [ds].  The forecast starts from the last
    date, [df['ds'].dropna().iloc[-1]]: when no row has a date this
    raises an [IndexError], and the answer is the error dict. *)
Definition simple_forecast (historical_data : option (list Row))
    (periods : nat) : Result :=
  match historical_data with
  | None => Build_Result false [] None (Some "No price data")
  | Some df =>
      let prices := dropna (map y df) in
      if (List.length prices <? 5)%nat
      then Build_Result false [] None (Some "Insufficient data")
      else
        let (slope, intercept) := polyfit prices in
        let volatility :=
          if (1 <? List.length prices)%nat
          then np_std np_sqrt prices
          else last prices 0 * 0.1 in
        if negb (existsb ds df)
        then Build_Result false [] None
               (Some "single positional indexer is out-of-bounds")
        else
          let forecast :=
            map (linear_point slope intercept volatility
                              (List.length prices))
                (seq 1 periods) in
          Build_Result true forecast (Some "Linear Trend") None
  end.

(** A row of Prophet's forecast, as it is reported. *)
Definition prophet_point (row : Q * Q * Q) : Forecast.t :=
  let '(yhat, yhat_lower, yhat_upper) := row in
  Forecast.mk (Py.round (Py.max 0 yhat) 2)
              (Py.round (Py.max 0 yhat_lower) 2)
              (Py.round (Py.max 0 yhat_upper) 2).

(** The rows that survive [historical_data[['ds', 'y']].dropna()]. *)
Definition clean (df : list Row) : list Q :=
  dropna (map y (filter ds df)).

(** [predict_with_prophet(historical_data, periods)]. *)
Definition predict_with_prophet (historical_data : option (list Row))
    (periods : nat) : Result :=
  if negb PROPHET_AVAILABLE then simple_forecast historical_data periods
  else
    match historical_data with
    | None => simple_forecast historical_data periods
    | Some rows =>
        let df := clean rows in
        if (List.length df <? 10)%nat
        then simple_forecast historical_data periods
        else
          match prophet df periods with
          | Some future_forecast =>
              if (List.length future_forecast =? 0)%nat
              then simple_forecast historical_data periods
              else Build_Result true (map prophet_point future_forecast)
                                (Some "Prophet") None
          | None => simple_forecast historical_data periods
          end
    end.

(** The StockX data set as [get_sneaker_price_history] reads it: whether
    the file is there, whether a name matches any sale, and the average
    sale price of the matching sales for each order date, in date
    order. *)
Record Dataset := {
  present : bool;
  sales_found : string -> bool;
  daily_average : string -> list (option Q) }.

(** [get_sneaker_price_history(sneaker_name=...)], reduced to the keys the
    ensemble reads. *)
Definition get_sneaker_price_history (data : Dataset) (sneaker_name : string)
    : History.t :=
  if negb (present data) then History.mk false [] None None
  else if String.eqb sneaker_name "" then History.mk false [] None None
  else if negb (sales_found data sneaker_name)
  then History.mk false [] None None
  else
    let price_history := daily_average data sneaker_name in
    let prophet_df := map (Build_Row true) price_history in
    let forecast_result := predict_with_prophet (Some prophet_df) 30 in
    History.mk true
               (forecast forecast_result)
               (Some (or_default (model forecast_result) "Linear Trend"))
               (Some (List.length price_history)).

End Forecasters.

End TimeSeries.

(** ** Search interest and sentiment of [live_data_collector.py] *)

Module LiveGoogleTrends.

(** [Series.mean()] of integer interest values. *)
Definition mean (data : list Z) : Q := np_mean (map inject_Z data).

Definition head (n : nat) (data : list Z) : list Z := firstn n data.

Definition tail (n : nat) (data : list Z) : list Z :=
  skipn (List.length data - n) data.

Definition trend_of (data : list Z) : string :=
  let n := List.length data in
  if (2 <=? n)%nat then
    let recent :=
      if (3 <=? n)%nat then mean (tail (n / 3) data)
      else inject_Z (last data 0%Z) in
    let earlier :=
      if (3 <=? n)%nat then mean (head (n / 3) data)
      else inject_Z (hd 0%Z data) in
    if Py.gt recent (earlier * 1.1) then "rising"
    else if Py.lt recent (earlier * 0.9) then "falling"
    else "stable"
  else "unknown".

(** [get_live_interest], from the interest over time that pytrends
    returns: [None] when the request raises, and then the answer is the
    error dict. *)
Definition get_live_interest (interest_over_time : option (list Z))
    : Interest.t :=
  match interest_over_time with
  | None => Interest.mk None None None
  | Some [] => Interest.mk (Some 0) (Some 0) (Some "unknown")
  | Some data =>
      Interest.mk (Some (inject_Z (last data 0%Z)))
                  (Some (Py.round (mean data) 2))
                  (Some (trend_of data))
  end.

End LiveGoogleTrends.

Module LiveSentimentAnalyzer.

Definition POSITIVE : list string :=
  [ "fire"; "amazing"; "love"; "great"; "awesome"; "clean"; "heat"; "dope";
    "sick"; "beautiful"; "perfect"; "best"; "incredible"; "stunning"; "lit";
    "grail"; "must"; "cop"; "want"; "need"; "nice"; "fresh"; "cool"; "legit";
    "hard"; "crazy"; "insane"; "underrated"; "gorgeous"; "sleek"; "w";
    "comfortable"; "comfy"; "quality"; "worth"; "favorite"; "classic";
    "iconic"; "slaps"; "hits"; "banger"; "goat"; "drip"; "flex"; "valid";
    "gas"; "certified" ].

Definition NEGATIVE : list string :=
  [ "ugly"; "bad"; "hate"; "terrible"; "awful"; "trash"; "wack"; "boring";
    "overrated"; "overhyped"; "overpriced"; "fake"; "disappointing"; "meh";
    "pass"; "skip"; "waste"; "cheap"; "uncomfortable"; "wrong"; "worst";
    "garbage"; "horrible"; "disgusting"; "poor"; "mediocre"; "bland"; "l";
    "mid"; "dead"; "bricked"; "flop"; "resell"; "sits" ].

Definition member (w : string) (set : list string) : bool :=
  existsb (String.eqb w) set.

(** [sum(1 for w in words if w in set)]. *)
Definition count_in (set : list string) (words : list string) : nat :=
  List.length (filter (fun w => member w set) words).

(** The dict returned by [analyze_text]. *)
Record TextAnalysis := {
  sentiment_score : Q;
  positive_words : nat;
  negative_words : nat;
  label : string }.

(** [analyze_text], from the words of the cleaned text
    ([self.clean_text(text).split()]). *)
Definition analyze_words (words : list string) : TextAnalysis :=
  let positive_count := count_in POSITIVE words in
  let negative_count := count_in NEGATIVE words in
  let total := (positive_count + negative_count)%nat in
  let sentiment :=
    if (total =? 0)%nat then 0
    else (inject_Z (Z.of_nat positive_count)
          - inject_Z (Z.of_nat negative_count))
         / inject_Z (Z.of_nat total) in
  Build_TextAnalysis
    (Py.round sentiment 3) positive_count negative_count
    (if Py.gt sentiment 0.1 then "positive"
     else if Py.lt sentiment (-0.1) then "negative"
     else "neutral").

(** [avg_sentiment] of [analyze_reddit_posts], from the words of each
    post. *)
Definition avg_sentiment (posts : list (list string)) : Q :=
  match posts with
  | [] => 0
  | _ =>
      Py.round
        (np_mean (map (fun words => sentiment_score (analyze_words words))
                      posts)) 3
  end.

End LiveSentimentAnalyzer.

(** A world whose price history and search interest come from the
    collaborators above. *)
Definition collected_world (np_sqrt : Q -> Q) (polyfit : list Q -> Q * Q)
    (normal : nat -> Q -> Q) (PROPHET_AVAILABLE : bool)
    (prophet : list Q -> nat -> option (list (Q * Q * Q)))
    (data : TimeSeries.Dataset)
    (interest : string -> option (list Z)) : World.t :=
  World.mk (fun _ => Dates.mk 0 2023 1 1 0)
           (fun name =>
              Some (TimeSeries.get_sneaker_price_history
                      np_sqrt polyfit normal PROPHET_AVAILABLE prophet
                      data name))
           (fun _ => None)
           (fun name =>
              Some (LiveGoogleTrends.get_live_interest (interest name)))
           (fun _ _ => None).

(** A request that states a retail price of zero. *)
Definition free_request : Request.t :=
  Request.mk (Some "Promo Pair") None (Some 0) (Some "Nike")
             (Some "2024-03-01") (Some 9) (Some "Oregon") None.

(** A world with no data set, and a search interest of 42 on each of
    seven days. *)
Definition flat_world : World.t :=
  collected_world sqrt6 (fun _ => (0, 0)) (fun _ _ => 0) false
    (fun _ _ => None)
    (TimeSeries.Build_Dataset false (fun _ => false) (fun _ => []))
    (fun _ => Some [42; 42; 42; 42; 42; 42; 42]%Z).

(** A data set with five order dates for every name, read without
    Prophet, in a world that has nothing else. *)
Definition stockx_world : World.t :=
  collected_world sqrt6 (fun _ => (2, 300)) (fun _ _ => 0) false
    (fun _ _ => None)
    (TimeSeries.Build_Dataset true (fun _ => true)
       (fun _ => [Some 300; Some 302; None; Some 304; Some 306; Some 308]))
    (fun _ => None).

(** A data set whose prices fall by 100 a day from 500, read without
    Prophet: the line through them is below zero from the next day on
    and at -3000 on the thirtieth, so every point of the forecast is
    zero. *)
Definition falling_world : World.t :=
  collected_world sqrt6 (fun _ => (-100, 500)) (fun _ _ => 0) false
    (fun _ _ => None)
    (TimeSeries.Build_Dataset true (fun _ => true)
       (fun _ => [Some 500; Some 400; Some 300; Some 200; Some 100]))
    (fun _ => None).

(** The pickles of a full installation, and the same without the random
    forest. *)
Definition full_files : Files.t :=
  Files.mk (Some (fun _ => 300)) (Some (fun _ => 280)) None
           (Some (fun fs => 1.2 * retail_est fs))
           (Some (fun _ => Some 1)) (Some (fun _ => None, 12%nat))
           (Some (fun fs => Some fs)) true true.

Definition broken_files : Files.t :=
  Files.mk None (Some (fun _ => 280)) None None
           (Some (fun _ => Some 1)) (Some (fun _ => None, 12%nat))
           (Some (fun fs => Some fs)) true true.

(** A batch entry that names neither a retail price nor a sneaker. *)
Definition bare_request : Request.t :=
  Request.mk None (Some "Dunk Low") None None None None None None.

(** * Properties *)

(** ** Comparisons, [max] and [min] *)

Lemma gt_true (x y : Q) : Py.gt x y = true <-> y < x.
Proof.
  unfold Py.gt. split.
  - destruct (x ?= y) eqn:E; try discriminate. intros _. now apply Qgt_alt.
  - intros H. apply Qgt_alt in H. now rewrite H.
Qed.

Lemma gt_false (x y : Q) : Py.gt x y = false <-> x <= y.
Proof.
  split.
  - intros H. apply Qnot_lt_le. intros L. apply gt_true in L. congruence.
  - intros H. destruct (Py.gt x y) eqn:E; trivial.
    apply gt_true in E. lra.
Qed.

Lemma lt_true (x y : Q) : Py.lt x y = true <-> x < y.
Proof. unfold Py.lt. apply gt_true. Qed.

Lemma lt_false (x y : Q) : Py.lt x y = false <-> y <= x.
Proof. unfold Py.lt. apply gt_false. Qed.

Lemma max_lower (a b : Q) : a <= Py.max a b /\ b <= Py.max a b.
Proof.
  unfold Py.max. destruct (Py.gt b a) eqn:E.
  - apply gt_true in E. lra.
  - apply gt_false in E. lra.
Qed.

Lemma max_cases (a b : Q) :
  (a < b /\ Py.max a b = b) \/ (b <= a /\ Py.max a b = a).
Proof.
  unfold Py.max. destruct (Py.gt b a) eqn:E.
  - apply gt_true in E. now left.
  - apply gt_false in E. now right.
Qed.

Lemma min_cases (a b : Q) :
  (b < a /\ Py.min a b = b) \/ (a <= b /\ Py.min a b = a).
Proof.
  unfold Py.min. destruct (Py.lt b a) eqn:E.
  - apply lt_true in E. now left.
  - apply lt_false in E. now right.
Qed.

(** [min(hi, max(lo, x))] and [max(lo, min(hi, x))] stay within
    [[lo, hi]]. *)
Lemma min_max_bounds (lo hi x : Q) :
  lo <= hi -> lo <= Py.min hi (Py.max lo x) <= hi.
Proof.
  intros H.
  destruct (max_cases lo x) as [[? ->] | [? ->]];
    [destruct (min_cases hi x) as [[? ->] | [? ->]]
    | destruct (min_cases hi lo) as [[? ->] | [? ->]]]; lra.
Qed.


(** ** Sums *)

Lemma fold_left_Qplus (xs : list Q) :
  forall a, fold_left Qplus xs a == a + sumQ xs.
Proof.
  induction xs as [|x xs IH]; intros a; simpl.
  - ring.
  - rewrite IH. unfold sumQ. ring.
Qed.

Lemma sum_sumQ (xs : list Q) : Py.sum xs == sumQ xs.
Proof. unfold Py.sum. rewrite fold_left_Qplus. ring. Qed.

Lemma sumQ_app (xs ys : list Q) : sumQ (xs ++ ys) == sumQ xs + sumQ ys.
Proof.
  induction xs as [|x xs IH]; simpl.
  - ring.
  - rewrite IH. ring.
Qed.

(** ** The sources the fusion collects *)

Lemma fold_add_ml_predictions (ml : list (string * MLPred.t)) :
  forall acc,
    all_predictions (fold_left add_ml ml acc)
    = all_predictions acc ++ map source_pair (map ml_source ml).
Proof.
  induction ml as [|[k p] ml IH]; intros acc; simpl.
  - now rewrite app_nil_r.
  - rewrite IH. simpl. now rewrite <- app_assoc.
Qed.

Lemma fold_add_ml_weight (ml : list (string * MLPred.t)) :
  forall acc,
    total_weight (fold_left add_ml ml acc)
    == total_weight acc + sumQ (map effective_weight (map ml_source ml)).
Proof.
  induction ml as [|[k p] ml IH]; intros acc; simpl.
  - ring.
  - rewrite IH. simpl. unfold effective_weight at 2. simpl. ring.
Qed.

Lemma add_prophet_predictions (acc : Acc) (prophet : option Prophet.t) :
  all_predictions (add_prophet acc prophet)
  = all_predictions acc ++ map source_pair (prophet_sources prophet).
Proof.
  unfold add_prophet, prophet_sources.
  destruct prophet as [p|]; [|now rewrite app_nil_r].
  destruct (Prophet.predicted_price_30d p) as [price|];
    [|now rewrite app_nil_r].
  destruct (Py.truthy price); simpl; [reflexivity | now rewrite app_nil_r].
Qed.

Lemma add_prophet_weight (acc : Acc) (prophet : option Prophet.t) :
  total_weight (add_prophet acc prophet)
  == total_weight acc + sumQ (map effective_weight (prophet_sources prophet)).
Proof.
  unfold add_prophet, prophet_sources.
  destruct prophet as [p|]; simpl; [|ring].
  destruct (Prophet.predicted_price_30d p) as [price|]; simpl; [|ring].
  destruct (Py.truthy price); simpl; [|ring].
  unfold effective_weight. simpl. ring.
Qed.

Lemma collect_predictions ml prophet :
  all_predictions (collect ml prophet)
  = map source_pair (price_sources ml prophet).
Proof.
  unfold collect, price_sources.
  rewrite add_prophet_predictions, fold_add_ml_predictions, map_app.
  reflexivity.
Qed.

Lemma collect_weight ml prophet :
  total_weight (collect ml prophet)
  == sumQ (map effective_weight (price_sources ml prophet)).
Proof.
  unfold collect, price_sources.
  rewrite add_prophet_weight, fold_add_ml_weight, map_app, sumQ_app.
  simpl. ring.
Qed.

(** The weighted sum [sum(p * w for p, w in all_predictions)]. *)
Lemma weighted_sum_sources (srcs : list Source) :
  Py.sum (map (fun pw => fst pw * snd pw) (map source_pair srcs))
  == sumQ (map (fun s => src_price s * effective_weight s) srcs).
Proof.
  rewrite sum_sumQ, map_map. reflexivity.
Qed.

(** ** The base estimate *)

Lemma ensemble_price_positive ml prophet retail :
  let srcs := price_sources ml prophet in
  0 < sumQ (map effective_weight srcs) ->
  ensemble_price ml prophet retail
  == sumQ (map (fun s => src_price s * effective_weight s) srcs)
     / sumQ (map effective_weight srcs).
Proof.
  intros srcs H. unfold ensemble_price, ensemble_price_of.
  assert (G : Py.gt (total_weight (collect ml prophet)) 0 = true).
  { apply gt_true. now rewrite collect_weight. }
  rewrite G, collect_predictions, weighted_sum_sources, collect_weight.
  reflexivity.
Qed.

Lemma ensemble_price_fallback ml prophet retail :
  sumQ (map effective_weight (price_sources ml prophet)) <= 0 ->
  ensemble_price ml prophet retail == retail * 1.1.
Proof.
  intros H. unfold ensemble_price, ensemble_price_of.
  assert (G : Py.gt (total_weight (collect ml prophet)) 0 = false).
  { apply gt_false. now rewrite collect_weight. }
  now rewrite G.
Qed.

(** C1 (as the code has it).  The fusion collects one pair
    (price, weight * confidence) for every regression prediction and for
    the 30-day forecast when there is one whose price is not zero: no
    forecast, a forecast without a 30-day price and a forecast priced
    zero are left out, and one priced otherwise is a source.  When the sum of these effective weights is positive the base
    estimate is the weighted sum of the prices divided by it; when the sum
    is zero, as it is when there is no source at all, the base estimate is
    [retail_price * 1.1], and the fusion still returns a result, whose
    price is the adjusted base estimate rounded to cents. *)
Theorem C1_weighted_fusion :
  forall (np_sqrt : Q -> Q) ml prophet sentiment trends groq retail,
    let srcs := price_sources ml prophet in
    let total := sumQ (map effective_weight srcs) in
    all_predictions (collect ml prophet)
    = map (fun s => (src_price s, src_weight s * src_confidence s)) srcs
    /\ total_weight (collect ml prophet) == total
    /\ (prophet = None -> srcs = map ml_source ml)
    /\ (forall p,
          prophet = Some p ->
          match Prophet.predicted_price_30d p with
          | None => srcs = map ml_source ml
          | Some price =>
              (price == 0 -> srcs = map ml_source ml)
              /\ (~ price == 0 ->
                  srcs = map ml_source ml
                         ++ [Build_Source price (Prophet.weight p)
                                          (Prophet.confidence p)])
          end)
    /\ (0 < total ->
        ensemble_price ml prophet retail
        == sumQ (map (fun s => src_price s * effective_weight s) srcs) / total)
    /\ (total == 0 -> ensemble_price ml prophet retail == retail * 1.1)
    /\ (srcs = [] -> ensemble_price ml prophet retail == retail * 1.1)
    /\ Ensemble.best_predicted_price
         (calculate_ensemble_prediction np_sqrt ml prophet sentiment trends
                                        groq retail)
       = Py.round (final_price_of (ensemble_price ml prophet retail)
                                  sentiment trends groq) 2.
Proof.
  intros np_sqrt ml prophet sentiment trends groq retail srcs total.
  split; [apply collect_predictions|].
  split; [apply collect_weight|].
  split; [intros ->; apply app_nil_r|].
  split.
  { intros p ->. unfold srcs, price_sources, prophet_sources, Py.truthy.
    destruct (Prophet.predicted_price_30d p) as [price|]; [|apply app_nil_r].
    split; intros H.
    - apply Qeq_bool_iff in H. rewrite H. simpl. apply app_nil_r.
    - destruct (Qeq_bool price 0) eqn:B; [|reflexivity].
      apply Qeq_bool_iff in B. contradiction. }
  split; [apply ensemble_price_positive|].
  split.
  - intros H. apply ensemble_price_fallback. fold srcs. fold total.
    rewrite H. apply Qle_refl.
  - split; [|reflexivity].
    intros H. apply ensemble_price_fallback. fold srcs. rewrite H.
    simpl. apply Qle_refl.
Qed.

(** ** Convexity of the base estimate *)

Lemma Qlist_min_le (xs : list Q) :
  forall x, In x xs -> Qlist_min xs <= x.
Proof.
  induction xs as [|y rest IH]; intros x Hin; [contradiction|].
  destruct rest as [|z rest'].
  - destruct Hin as [->|[]]. apply Qle_refl.
  - change (Qmin y (Qlist_min (z :: rest')) <= x).
    destruct Hin as [->|Hin].
    + apply Q.le_min_l.
    + eapply Qle_trans; [apply Q.le_min_r | now apply IH].
Qed.

Lemma Qlist_max_ge (xs : list Q) :
  forall x, In x xs -> x <= Qlist_max xs.
Proof.
  induction xs as [|y rest IH]; intros x Hin; [contradiction|].
  destruct rest as [|z rest'].
  - destruct Hin as [->|[]]. apply Qle_refl.
  - change (x <= Qmax y (Qlist_max (z :: rest'))).
    destruct Hin as [->|Hin].
    + apply Q.le_max_l.
    + eapply Qle_trans; [now apply IH | apply Q.le_max_r].
Qed.

(** A weighted sum with positive weights lies between the bounds of its
    prices, scaled by the total weight. *)
Lemma weighted_sum_bounds (lo hi : Q) (srcs : list Source) :
  Forall (fun s => 0 < effective_weight s) srcs ->
  Forall (fun s => lo <= src_price s <= hi) srcs ->
  lo * sumQ (map effective_weight srcs)
  <= sumQ (map (fun s => src_price s * effective_weight s) srcs)
  <= hi * sumQ (map effective_weight srcs).
Proof.
  induction 1 as [|s srcs Hw _ IH]; intros Hp; simpl.
  - lra.
  - inversion Hp as [|? ? Hs Hrest]; subst.
    specialize (IH Hrest).
    set (W := sumQ (map effective_weight srcs)) in *.
    set (S := sumQ (map (fun s => src_price s * effective_weight s) srcs)) in *.
    nra.
Qed.

Lemma total_weight_positive (srcs : list Source) :
  srcs <> [] ->
  Forall (fun s => 0 < effective_weight s) srcs ->
  0 < sumQ (map effective_weight srcs).
Proof.
  intros Hne H. induction H as [|s srcs Hs Hrest IH]; [congruence|].
  simpl. destruct srcs as [|s' srcs'].
  - simpl. lra.
  - assert (0 < sumQ (map effective_weight (s' :: srcs'))) by (apply IH; discriminate).
    lra.
Qed.

Lemma effective_weight_positive (srcs : list Source) :
  Forall (fun s => 0 < src_weight s /\ 0 < src_confidence s) srcs ->
  Forall (fun s => 0 < effective_weight s) srcs.
Proof.
  intros H. eapply Forall_impl; [|exact H].
  intros s [Hw Hc]. unfold effective_weight. nra.
Qed.

Lemma ensemble_price_between (lo hi : Q) ml prophet retail :
  let srcs := price_sources ml prophet in
  srcs <> [] ->
  Forall (fun s => 0 < src_weight s /\ 0 < src_confidence s) srcs ->
  Forall (fun s => lo <= src_price s <= hi) srcs ->
  lo <= ensemble_price ml prophet retail <= hi.
Proof.
  intros srcs Hne Hpos Hp.
  apply effective_weight_positive in Hpos.
  pose proof (total_weight_positive srcs Hne Hpos) as HW.
  pose proof (weighted_sum_bounds lo hi srcs Hpos Hp) as [Hlo Hhi].
  rewrite (ensemble_price_positive ml prophet retail HW). fold srcs.
  split.
  - apply Qle_shift_div_l; assumption.
  - apply Qle_shift_div_r; assumption.
Qed.

(** C8.  With at least one source and every weight and confidence
    positive, the base estimate lies between the least and the greatest
    source price; a single source of weight 1 and confidence 1 gives its
    own price. *)
Theorem C8_base_estimate_convex :
  forall ml prophet retail,
    let srcs := price_sources ml prophet in
    srcs <> [] ->
    Forall (fun s => 0 < src_weight s /\ 0 < src_confidence s) srcs ->
    Qlist_min (map src_price srcs)
    <= ensemble_price ml prophet retail
    <= Qlist_max (map src_price srcs)
    /\ (forall key price ty retail',
          ensemble_price [(key, MLPred.mk price 1 1 ty)] None retail'
          == price).
Proof.
  intros ml prophet retail srcs Hne Hpos. split.
  - apply ensemble_price_between; try assumption.
    apply Forall_forall. intros s Hs. split.
    + apply Qlist_min_le. now apply in_map.
    + apply Qlist_max_ge. now apply in_map.
  - intros key price ty retail'.
    unfold ensemble_price, ensemble_price_of, collect, Py.sum. simpl.
    field.
Qed.

Lemma C8_witness :
  280 <= ensemble_price scenario_ml None 220 <= 300.
Proof.
  apply (C8_base_estimate_convex scenario_ml None 220).
  - discriminate.
  - repeat constructor.
Defined.

(** ** Rounding *)

Lemma round_half_even_compat (x y : Q) :
  x == y -> Py.round_half_even x = Py.round_half_even y.
Proof.
  intros H. unfold Py.round_half_even.
  rewrite (Qfloor_comp x y H).
  assert (E : (x - inject_Z (Qfloor y) ?= 1 # 2)
              = (y - inject_Z (Qfloor y) ?= 1 # 2)).
  { apply Qcompare_comp; [now rewrite H | reflexivity]. }
  now rewrite E.
Qed.

Lemma round_compat (x y : Q) (n : nat) : x == y -> Py.round x n = Py.round y n.
Proof.
  intros H. unfold Py.round.
  set (scale := inject_Z (10 ^ Z.of_nat n)).
  rewrite (round_half_even_compat (x * scale) (y * scale)); [reflexivity|].
  now rewrite H.
Qed.





(** ** Sequential adjustments *)

Lemma result_price (np_sqrt : Q -> Q) ml prophet sentiment trends groq retail :
  Ensemble.best_predicted_price
    (calculate_ensemble_prediction np_sqrt ml prophet sentiment trends groq
                                   retail)
  = Py.round (final_price_of (ensemble_price ml prophet retail)
                             sentiment trends groq) 2.
Proof. reflexivity. Qed.

(** C6.  The price the fusion returns is the base estimate times the
    sentiment factor, then times the trend factor; an LLM analysis that is
    present with confidence above 0.6 then replaces this running estimate
    by nine tenths of it plus one tenth of the LLM price, and one that is
    absent or not above 0.6 leaves it as it is.  A base of 300 with
    factors 1.05 and 0.98 gives 308.7. *)
Theorem C6_sequential_adjustments :
  forall (np_sqrt : Q -> Q) ml prophet sentiment trends groq retail,
    let base := ensemble_price ml prophet retail in
    let running :=
      base * Sentiment.adjustment_factor sentiment
           * Trends.adjustment_factor trends in
    let result :=
      calculate_ensemble_prediction np_sqrt ml prophet sentiment trends groq
                                    retail in
    (groq = None ->
     Ensemble.best_predicted_price result = Py.round running 2)
    /\ (forall g, groq = Some g -> llm_confidence g <= 0.6 ->
        Ensemble.best_predicted_price result = Py.round running 2)
    /\ (forall g, groq = Some g -> 0.6 < llm_confidence g ->
        Ensemble.best_predicted_price result
        = Py.round (0.9 * running + 0.1 * llm_price g running) 2)
    /\ adjusted_price 300 (Sentiment.mk 0 50 1.05 20 "reddit" 0.10 "")
                      (Trends.mk 60 50 "rising" 0.98 0.05 "")
       == 308.7.
Proof.
  intros np_sqrt ml prophet sentiment trends groq retail base running result.
  unfold result. rewrite result_price. fold base.
  unfold final_price_of, adjusted_price. fold running.
  repeat split.
  - intros ->. reflexivity.
  - intros g -> H. simpl. apply gt_false in H. now rewrite H.
  - intros g -> H. simpl. apply gt_true in H. rewrite H.
    apply round_compat. ring.
Qed.

Lemma C6_witness :
  Ensemble.best_predicted_price
    (calculate_ensemble_prediction sqrt6
       [("random_forest", MLPred.mk 300 0.93 0.35 "Tree-based Ensemble")]
       None
       (Sentiment.mk 0 50 1.05 20 "reddit" 0.10 "Sentiment Analysis")
       (Trends.mk 60 50 "rising" 0.98 0.05 "Google Trends")
       (Some (Groq.mk (Some 400) (Some 0.8) None 0.10 "LLM Market Analysis"))
       220)
  = Py.round (0.9 * (300 * 1.05 * 0.98) + 0.1 * 400) 2.
Proof.
  refine (proj1 (proj2 (proj2
    (C6_sequential_adjustments sqrt6
       [("random_forest", MLPred.mk 300 0.93 0.35 "Tree-based Ensemble")]
       None
       (Sentiment.mk 0 50 1.05 20 "reddit" 0.10 "Sentiment Analysis")
       (Trends.mk 60 50 "rising" 0.98 0.05 "Google Trends")
       (Some (Groq.mk (Some 400) (Some 0.8) None 0.10 "LLM Market Analysis"))
       220))) _ eq_refl _).
  reflexivity.
Defined.

(** ** Overall confidence *)



Lemma predictions_list_sources ml prophet :
  map fst (all_predictions (collect ml prophet))
  = map src_price (price_sources ml prophet).
Proof. rewrite collect_predictions, map_map. reflexivity. Qed.



(** ** The orchestrator *)

Lemma predict_best_price_unloaded (np_sqrt : Q -> Q) self w data
    (include_sentiment include_trends include_groq : bool) :
  loaded self = false ->
  predict_best_price np_sqrt self w data include_sentiment include_trends
                     include_groq
  = Failure "Models not loaded. Run train_model.py first.".
Proof. intros H. unfold predict_best_price. now rewrite H. Qed.

Lemma predict_best_price_ill_typed (np_sqrt : Q -> Q) self w data
    (include_sentiment include_trends include_groq : bool) message :
  loaded self = true ->
  Request.ill_typed data = Some message ->
  predict_best_price np_sqrt self w data include_sentiment include_trends
                     include_groq
  = Failure message.
Proof.
  intros H E. unfold predict_best_price, attempt, converted.
  rewrite H, E. reflexivity.
Qed.

Lemma predict_best_price_ill_typed_answer (np_sqrt : Q -> Q) self w data
    (include_sentiment include_trends : bool) message :
  loaded self = true ->
  Request.ill_typed data = None ->
  World.get_groq_analysis w data
    (predict_with_ml_models self (prepare_features self w data))
  = Some (Groq.IllTyped message) ->
  predict_best_price np_sqrt self w data include_sentiment include_trends true
  = Failure message.
Proof.
  intros H E G. unfold predict_best_price, attempt, converted.
  rewrite H, E. cbn [negb bind]. cbv zeta. rewrite G. reflexivity.
Qed.

Lemma predict_best_price_typed (np_sqrt : Q -> Q) self w data
    (include_sentiment include_trends include_groq : bool)
    (analysis : option Groq.t) :
  loaded self = true ->
  Request.ill_typed data = None ->
  (if include_groq
   then World.get_groq_analysis w data
          (predict_with_ml_models self (prepare_features self w data))
   else None) = option_map Groq.Typed analysis ->
  let retail := or_default (Request.retail_price data) 220 in
  let result :=
    calculate_ensemble_prediction np_sqrt
      (predict_with_ml_models self (prepare_features self w data))
      (predict_with_prophet w (request_name data) retail)
      (if include_sentiment
       then get_sentiment_adjustment w (request_name data)
       else disabled_sentiment)
      (if include_trends
       then get_trends_adjustment w (request_name data)
       else disabled_trends)
      analysis retail in
  predict_best_price np_sqrt self w data include_sentiment include_trends
                     include_groq
  = Success (request_name data) retail result
            (get_recommendation (Ensemble.price_change_percent result)
                                (Ensemble.overall_confidence result)).
Proof.
  intros H E G. unfold predict_best_price, attempt, converted.
  rewrite H, E. cbn [negb bind]. cbv zeta. rewrite G.
  destruct analysis; reflexivity.
Qed.

Lemma predict_best_price_success (np_sqrt : Q -> Q) self w data
    (include_sentiment include_trends include_groq : bool) :
  success (predict_best_price np_sqrt self w data include_sentiment
                              include_trends include_groq)
  = loaded self && well_typed data
    && Groq.well_typed (groq_answer self w data include_groq).
Proof.
  unfold predict_best_price, attempt, converted, well_typed, groq_answer.
  destruct (loaded self); [|reflexivity].
  destruct (Request.ill_typed data); [reflexivity|].
  cbn [negb bind andb]. cbv zeta.
  destruct include_groq; [|reflexivity].
  destruct (World.get_groq_analysis w data
              (predict_with_ml_models self (prepare_features self w data)))
    as [[analysis|message]|]; reflexivity.
Qed.

Lemma predict_best_price_answers (np_sqrt : Q -> Q) self w data
    (include_sentiment include_trends include_groq : bool) :
  loaded self = true ->
  Request.ill_typed data = None ->
  Groq.well_typed (groq_answer self w data include_groq) = true ->
  exists analysis,
    let retail := or_default (Request.retail_price data) 220 in
    let result :=
      calculate_ensemble_prediction np_sqrt
        (predict_with_ml_models self (prepare_features self w data))
        (predict_with_prophet w (request_name data) retail)
        (if include_sentiment
         then get_sentiment_adjustment w (request_name data)
         else disabled_sentiment)
        (if include_trends
         then get_trends_adjustment w (request_name data)
         else disabled_trends)
        analysis retail in
    predict_best_price np_sqrt self w data include_sentiment include_trends
                       include_groq
    = Success (request_name data) retail result
              (get_recommendation (Ensemble.price_change_percent result)
                                  (Ensemble.overall_confidence result)).
Proof.
  intros Hl Ht Hg. unfold groq_answer in Hg.
  destruct (if include_groq
            then World.get_groq_analysis w data
                   (predict_with_ml_models self (prepare_features self w data))
            else None) as [[analysis|message]|] eqn:G.
  - exists (Some analysis).
    now apply (predict_best_price_typed np_sqrt self w data include_sentiment
                 include_trends include_groq (Some analysis)).
  - discriminate Hg.
  - exists None.
    now apply (predict_best_price_typed np_sqrt self w data include_sentiment
                 include_trends include_groq None).
Qed.

(** ** Disabled signals *)

(** C10.  With sentiment and trends switched off and the LLM switched off
    or silent, a loaded predictor that is handed a request whose values
    have the types the code converts answers with both factors equal to
    one and with the base estimate, rounded to cents, as its price. *)
Theorem C10_disabled_signals_identity :
  forall (np_sqrt : Q -> Q) self w data include_groq,
    loaded self = true ->
    Request.ill_typed data = None ->
    (include_groq = false
     \/ World.get_groq_analysis w data
          (predict_with_ml_models self (prepare_features self w data))
        = None) ->
    let retail := or_default (Request.retail_price data) 220 in
    let ml := predict_with_ml_models self (prepare_features self w data) in
    let prophet := predict_with_prophet w (request_name data) retail in
    let base := ensemble_price ml prophet retail in
    exists result rec,
      predict_best_price np_sqrt self w data false false include_groq
      = Success (request_name data) retail result rec
      /\ final_price_of base disabled_sentiment disabled_trends None == base
      /\ Ensemble.best_predicted_price result = Py.round base 2
      /\ Ensemble.sentiment_factor result == 1
      /\ Ensemble.trends_factor result == 1
      /\ Ensemble.combined_adjustment result == 1.
Proof.
  intros np_sqrt self w data include_groq Hloaded Htyped Hgroq
         retail ml prophet base.
  assert (G : (if include_groq
               then World.get_groq_analysis w data ml else None)
              = option_map Groq.Typed None).
  { destruct Hgroq as [-> | H]; [reflexivity|].
    destruct include_groq; [exact H | reflexivity]. }
  assert (F : final_price_of base disabled_sentiment disabled_trends None
              == base).
  { unfold final_price_of, adjusted_price, blend_llm. simpl. ring. }
  rewrite (predict_best_price_typed np_sqrt self w data false false
             include_groq None Hloaded Htyped G).
  eexists. eexists. split; [reflexivity|].
  split; [exact F|]. split; [|repeat split; reflexivity].
  rewrite result_price. fold retail ml prophet base. now apply round_compat.
Qed.

Lemma C10_witness :
  exists result rec,
    predict_best_price sqrt6 demo_predictor silent_world demo_request
                       false false true
    = Success "Adidas Yeezy Boost 350 V2 Beluga" 220 result rec
    /\ Ensemble.best_predicted_price result == 336.77.
Proof.
  destruct (C10_disabled_signals_identity sqrt6 demo_predictor silent_world
              demo_request true eq_refl eq_refl (or_intror eq_refl))
    as (result & rec & H & _ & P & _).
  exists result, rec. split; [exact H|]. rewrite P. reflexivity.
Defined.

(** ** Recommendation tiers *)

Lemma tier_cases (x c : Q) :
  (75 < x /\ tier x c = Some StrongBuy)
  \/ (40 < x <= 75 /\ tier x c = Some Buy)
  \/ (15 < x <= 40 /\ tier x c = Some Consider)
  \/ (0 < x <= 15 /\ tier x c = Some Hold)
  \/ (-15 < x <= 0 /\ tier x c = Some Caution)
  \/ (x <= -15 /\ tier x c = Some Avoid).
Proof.
  unfold tier, get_recommendation.
  destruct (Py.gt x 75) eqn:E1;
    [apply gt_true in E1; left; split; [lra | reflexivity]
    | apply gt_false in E1; right].
  destruct (Py.gt x 40) eqn:E2;
    [apply gt_true in E2; left; split; [lra | reflexivity]
    | apply gt_false in E2; right].
  destruct (Py.gt x 15) eqn:E3;
    [apply gt_true in E3; left; split; [lra | reflexivity]
    | apply gt_false in E3; right].
  destruct (Py.gt x 0) eqn:E4;
    [apply gt_true in E4; left; split; [lra | reflexivity]
    | apply gt_false in E4; right].
  destruct (Py.gt x (-15)) eqn:E5;
    [apply gt_true in E5; left; split; [lra | reflexivity]
    | apply gt_false in E5; right].
  split; [lra | reflexivity].
Qed.

Ltac tier_band x c :=
  destruct (tier_cases x c)
    as [[? T] | [[? T] | [[? T] | [[? T] | [[? T] | [? T]]]]]];
  rewrite T; split; intros; try discriminate; try lra; try reflexivity.

(** C3 (as the code has it).  Every percentage has exactly one tier, and
    the bands are half-open the other way round: each excludes its lower
    bound and includes its upper bound.  STRONG BUY is above 75, BUY is
    (40, 75], CONSIDER BUYING is (15, 40], HOLD is (0, 15], CAUTION is
    (-15, 0] and AVOID is -15 and below; so each of 75, 40, 15, 0 and -15
    falls in the tier below it. *)
Theorem C3_tiers_upper_inclusive :
  forall x c : Q,
    (tier x c = Some StrongBuy <-> 75 < x)
    /\ (tier x c = Some Buy <-> 40 < x <= 75)
    /\ (tier x c = Some Consider <-> 15 < x <= 40)
    /\ (tier x c = Some Hold <-> 0 < x <= 15)
    /\ (tier x c = Some Caution <-> -15 < x <= 0)
    /\ (tier x c = Some Avoid <-> x <= -15)
    /\ tier 75 c = Some Buy
    /\ tier 40 c = Some Consider
    /\ tier 15 c = Some Hold
    /\ tier 0 c = Some Caution
    /\ tier (-15) c = Some Avoid.
Proof.
  intros x c.
  split; [tier_band x c|]. split; [tier_band x c|].
  split; [tier_band x c|]. split; [tier_band x c|].
  split; [tier_band x c|]. split; [tier_band x c|].
  split; [|split; [|split; [|split]]].
  - destruct (tier_cases 75 c)
      as [[? T] | [[? T] | [[? T] | [[? T] | [[? T] | [? T]]]]]];
      try lra; exact T.
  - destruct (tier_cases 40 c)
      as [[? T] | [[? T] | [[? T] | [[? T] | [[? T] | [? T]]]]]];
      try lra; exact T.
  - destruct (tier_cases 15 c)
      as [[? T] | [[? T] | [[? T] | [[? T] | [[? T] | [? T]]]]]];
      try lra; exact T.
  - destruct (tier_cases 0 c)
      as [[? T] | [[? T] | [[? T] | [[? T] | [[? T] | [? T]]]]]];
      try lra; exact T.
  - destruct (tier_cases (-15) c)
      as [[? T] | [[? T] | [[? T] | [[? T] | [[? T] | [? T]]]]]];
      try lra; exact T.
Qed.

(** At 40, the lower bound of the specification's BUY band, the code
    answers CONSIDER BUYING. *)
Lemma C3_counterexample :
  spec_tier 40 = Buy
  /\ Recommendation.action (get_recommendation 40 0.80) = "CONSIDER BUYING"
  /\ tier 40 0.80 <> Some (spec_tier 40).
Proof.
  split; [reflexivity|]. split; [reflexivity|]. discriminate.
Qed.

(** ** The plausibility filter *)

Lemma reasonable_spec (pred : Q) (features : list Q) :
  reasonable pred features = true
  <-> 0 < pred /\ pred < retail_est features * 5.
Proof.
  unfold reasonable. rewrite andb_true_iff, gt_true, lt_true. reflexivity.
Qed.

Lemma reasonable_boundary (pred : Q) (features : list Q) :
  pred == 5 * retail_est features -> reasonable pred features = false.
Proof.
  intros H. destruct (reasonable pred features) eqn:E; [|reflexivity].
  apply reasonable_spec in E. lra.
Qed.

Lemma reasonable_inside (pred : Q) (features : list Q) :
  0 < retail_est features ->
  pred == 4.999 * retail_est features -> reasonable pred features = true.
Proof.
  intros Hr H. apply reasonable_spec. lra.
Qed.

(** C4 (as the code has it).  Only the two linear models are filtered: a
    ridge or linear prediction is emitted exactly when the scaler works
    and the prediction is positive and strictly below five times the
    retail price, the third feature; a prediction of exactly five times
    the retail price is dropped and one of 4.999 times a positive retail
    price is kept.  The random forest and the gradient boosting
    predictions are always emitted, raised to zero when negative. *)
Theorem C4_linear_models_filtered :
  forall (self : EnsemblePricePredictor) (features : list Q),
    let out := predict_with_ml_models self features in
    lookup "random_forest" out
    = option_map
        (fun m : Model =>
           MLPred.mk (Py.max 0 (m features)) 0.93 0.35 "Tree-based Ensemble")
        (lookup "random_forest" (models self))
    /\ lookup "gradient_boosting" out
       = option_map
           (fun m : Model =>
              MLPred.mk (Py.max 0 (m features)) 0.91 0.30 "Boosted Trees")
           (lookup "gradient_boosting" (models self))
    /\ lookup "ridge_regression" out
       = match scaler self features,
               lookup "ridge_regression" (models self) with
         | Some scaled, Some m =>
             if reasonable (m scaled) features
             then Some (MLPred.mk (Py.max 0 (m scaled)) 0.75 0.10
                                  "Regularized Linear")
             else None
         | _, _ => None
         end
    /\ lookup "linear_regression" out
       = match scaler self features,
               lookup "linear_regression" (models self) with
         | Some scaled, Some m =>
             if reasonable (m scaled) features
             then Some (MLPred.mk (Py.max 0 (m scaled)) 0.72 0.05
                                  "Linear Baseline")
             else None
         | _, _ => None
         end
    /\ (forall pred,
          reasonable pred features = true
          <-> 0 < pred /\ pred < retail_est features * 5)
    /\ (forall pred,
          pred == 5 * retail_est features ->
          reasonable pred features = false)
    /\ (forall pred,
          0 < retail_est features ->
          pred == 4.999 * retail_est features ->
          reasonable pred features = true)
    /\ (forall w data,
          retail_est (prepare_features self w data)
          = or_default (Request.retail_price data) 220).
Proof.
  intros self features out.
  unfold out, predict_with_ml_models, tree_prediction, linear_prediction.
  destruct (lookup "random_forest" (models self)) as [rf|];
    destruct (lookup "gradient_boosting" (models self)) as [gb|];
    destruct (scaler self features) as [scaled|];
    destruct (lookup "ridge_regression" (models self)) as [ridge|];
    destruct (lookup "linear_regression" (models self)) as [lr|];
    try destruct (reasonable (ridge scaled) features);
    try destruct (reasonable (lr scaled) features);
    (repeat (split; [reflexivity|]));
    (split; [intros pred; apply reasonable_spec|]);
    (split; [intros pred; apply reasonable_boundary|]);
    (split; [intros pred; apply reasonable_inside | reflexivity]).
Qed.

Lemma C4_witness :
  reasonable (4.999 * 220)
             (prepare_features demo_predictor silent_world demo_request)
  = true
  /\ reasonable (5 * 220)
                (prepare_features demo_predictor silent_world demo_request)
     = false.
Proof.
  pose proof (C4_linear_models_filtered demo_predictor
                (prepare_features demo_predictor silent_world demo_request))
    as (_ & _ & _ & _ & _ & Hout & Hin & _).
  split.
  - apply Hin; reflexivity.
  - apply Hout; reflexivity.
Defined.

(** A random forest prediction of 1500 for a retail price of 220 is above
    five times the retail price, and is emitted all the same. *)
Lemma C4_counterexample :
  retail_est (prepare_features outlier_predictor silent_world demo_request) * 5
  < 1500
  /\ lookup "random_forest"
       (predict_with_ml_models outlier_predictor
          (prepare_features outlier_predictor silent_world demo_request))
     = Some (MLPred.mk 1500 0.93 0.35 "Tree-based Ensemble").
Proof. split; reflexivity. Qed.

(** ** Adjustment factors *)

Lemma trends_factor_bounds (w : World.t) (name : string) :
  0.8 <= Trends.adjustment_factor (get_trends_adjustment w name) <= 1.2.
Proof.
  unfold get_trends_adjustment.
  destruct (World.get_live_interest w name) as [d|]; simpl.
  - apply min_max_bounds. lra.
  - lra.
Qed.

Lemma sentiment_is_default (w : World.t) (name : string) :
  get_sentiment_adjustment w name = default_sentiment.
Proof.
  unfold get_sentiment_adjustment, analyze_sneaker.
  destruct (World.search_sneaker w name) as [[|post rest]|]; reflexivity.
Qed.

(** C7 (as the code has it).  The sentiment factor lies in
    [[0.85, 1.15]]: the analyzer call of [get_sentiment_adjustment] always
    raises, so the answer is the default one and the factor is exactly
    one, whatever the posts.  The trend factor is clamped to
    [[0.8, 1.2]], for every interest data. *)
Theorem C7_adjustment_ranges :
  forall (w : World.t) (name : string),
    let s := get_sentiment_adjustment w name in
    let t := get_trends_adjustment w name in
    0.85 <= Sentiment.adjustment_factor s <= 1.15
    /\ s = default_sentiment
    /\ Sentiment.adjustment_factor s == 1
    /\ 0.8 <= Trends.adjustment_factor t <= 1.2.
Proof.
  intros w name s t. unfold s. rewrite sentiment_is_default.
  split; [split; discriminate|].
  split; [reflexivity|].
  split; [reflexivity|].
  apply trends_factor_bounds.
Qed.

(** With interest rising from an average of 40 to 100 the trend factor
    is 1.2, above 1.10. *)
Lemma C7_counterexample :
  Trends.adjustment_factor (get_trends_adjustment rising_world "Yeezy") == 1.2
  /\ 1.10 < Trends.adjustment_factor (get_trends_adjustment rising_world "Yeezy").
Proof. split; reflexivity. Qed.

(** Two posts about a sneaker do not move its sentiment answer. *)
Lemma posts_leave_sentiment_default :
  World.search_sneaker hyped_world "Yeezy"
  = Some ["these are fire"; "must cop"]
  /\ get_sentiment_adjustment hyped_world "Yeezy" = default_sentiment.
Proof. split; reflexivity. Qed.

(** ** The forecast as a source *)

Lemma prophet_constants (w : World.t) (name : string) (retail : Q)
    (p : Prophet.t) :
  predict_with_prophet w name retail = Some p ->
  Prophet.confidence p = 0.85 /\ Prophet.weight p = 0.20.
Proof.
  unfold predict_with_prophet.
  destruct (String.eqb name ""); [discriminate|].
  destruct (World.get_sneaker_price_history w name) as [h|]; [|discriminate].
  destruct (History.success h && negb (List.length (History.forecast h) =? 0)%nat);
    [|discriminate].
  intros [= <-]. split; reflexivity.
Qed.

(** C9 (as the code has it).  A forecast source has confidence 0.85 and
    weight 0.20 whatever the number of historical observations, which it
    only records.  Its 30-day price is the last point of the forecast,
    its 7-day and 14-day prices the seventh and the fourteenth; the
    fusion collects the 30-day price alone, with effective weight
    0.20 * 0.85, when that price is not zero. *)
Theorem C9_forecast_source :
  forall (w : World.t) (name : string) (retail : Q) (p : Prophet.t),
    predict_with_prophet w name retail = Some p ->
    Prophet.confidence p = 0.85
    /\ Prophet.weight p = 0.20
    /\ (exists h,
          World.get_sneaker_price_history w name = Some h
          /\ History.forecast h <> []
          /\ Prophet.historical_data_points p
             = or_default (History.data_points h) 0%nat
          /\ Prophet.predicted_price_30d p
             = option_map Forecast.predicted_price
                          (last_item (History.forecast h))
          /\ Prophet.predicted_price_7d p
             = option_map Forecast.predicted_price
                          (nth_error (History.forecast h) 6)
          /\ Prophet.predicted_price_14d p
             = option_map Forecast.predicted_price
                          (nth_error (History.forecast h) 13))
    /\ (forall ml,
          all_predictions (collect ml (Some p))
          = all_predictions (collect ml None)
            ++ match Prophet.predicted_price_30d p with
               | Some price =>
                   if Py.truthy price then [(price, 0.20 * 0.85)] else []
               | None => []
               end).
Proof.
  intros w name retail p H.
  destruct (prophet_constants w name retail p H) as [Hc Hw].
  split; [exact Hc|]. split; [exact Hw|]. split.
  - revert H. unfold predict_with_prophet.
    destruct (String.eqb name ""); [discriminate|].
    destruct (World.get_sneaker_price_history w name) as [h|];
      [|discriminate].
    destruct (History.success h); simpl; [|discriminate].
    destruct (History.forecast h) as [|pt rest] eqn:E; simpl;
      [discriminate|].
    intros [= <-]. exists h. rewrite E. simpl.
    repeat split; try reflexivity. discriminate.
  - intros ml. unfold collect at 1. rewrite add_prophet_predictions.
    unfold collect. simpl.
    unfold prophet_sources.
    destruct (Prophet.predicted_price_30d p) as [price|];
      [|reflexivity].
    destruct (Py.truthy price); [|reflexivity].
    unfold source_pair, effective_weight. simpl. now rewrite Hc, Hw.
Qed.

Lemma C9_witness :
  option_map Prophet.confidence
             (predict_with_prophet short_history_world "Yeezy" 220)
  = Some 0.85.
Proof.
  destruct (predict_with_prophet short_history_world "Yeezy" 220)
    as [p|] eqn:E; [|discriminate E].
  simpl. f_equal.
  exact (proj1 (C9_forecast_source short_history_world "Yeezy" 220 p E)).
Defined.

(** With five historical observations the forecast source still has
    confidence 0.85, where the specification's rule gives 0.70. *)
Lemma C9_counterexample :
  option_map Prophet.historical_data_points
             (predict_with_prophet short_history_world "Yeezy" 220)
  = Some 5%nat
  /\ option_map Prophet.confidence
                (predict_with_prophet short_history_world "Yeezy" 220)
     = Some 0.85
  /\ spec_forecast_confidence 5 = 0.70.
Proof. repeat split; reflexivity. Qed.

(** ** Requests with no price source *)

Lemma tree_always_emitted (self : EnsemblePricePredictor) (features : list Q) :
  lookup "random_forest" (models self) <> None ->
  predict_with_ml_models self features <> [].
Proof.
  intros H. unfold predict_with_ml_models, tree_prediction, linear_prediction.
  destruct (lookup "random_forest" (models self)) as [rf|]; [|congruence].
  destruct (lookup "gradient_boosting" (models self)) as [gb|];
    destruct (scaler self features) as [scaled|];
    destruct (lookup "ridge_regression" (models self)) as [ridge|];
    destruct (lookup "linear_regression" (models self)) as [lr|];
    try destruct (reasonable (ridge scaled) features);
    try destruct (reasonable (lr scaled) features);
    discriminate.
Qed.

Lemma loaded_holds_forest (files : Files.t) :
  loaded (load_models files) = true ->
  lookup "random_forest" (models (load_models files)) <> None.
Proof.
  unfold load_models, optional_model.
  destruct (Files.random_forest_model files); [|discriminate].
  destruct (Files.gradient_boosting_model files); [|discriminate].
  intros _.
  destruct (Files.linear_regression_model files);
    destruct (Files.ridge_regression_model files);
    destruct (Files.brand_encoder files);
    try destruct (Files.region_encoder files) as [[region classes]|];
    try destruct (Files.scaler files); discriminate.
Qed.

(** C2 (as the code has it).  A predictor, as [load_models] leaves it,
    from which no regression prediction comes is one whose models did not
    load, and a request to it fails, whether or not there is a forecast:
    success is false, there is neither a prediction nor a recommendation,
    so no fallback estimate either, and the error is the message "Models
    not loaded. Run train_model.py first.", not a kind
    NoComputablePrice. *)
Theorem C2_no_source_request_fails :
  forall (np_sqrt : Q -> Q) files w data
         (include_sentiment include_trends include_groq : bool) features,
    let self := load_models files in
    let response :=
      predict_best_price np_sqrt self w data include_sentiment include_trends
                         include_groq in
    predict_with_ml_models self features = [] ->
    loaded self = false
    /\ response = Failure "Models not loaded. Run train_model.py first."
    /\ success response = false
    /\ prediction response = None
    /\ recommendation response = None
    /\ error response = Some "Models not loaded. Run train_model.py first."
    /\ error response <> Some NoComputablePrice.
Proof.
  intros np_sqrt files w data include_sentiment include_trends include_groq
         features self response Hml.
  assert (L : loaded self = false).
  { destruct (loaded self) eqn:E; [|reflexivity].
    exfalso. apply (tree_always_emitted self features); [|exact Hml].
    now apply loaded_holds_forest. }
  split; [exact L|].
  unfold response.
  rewrite (predict_best_price_unloaded np_sqrt self w data include_sentiment
             include_trends include_groq L).
  repeat split; try reflexivity. discriminate.
Qed.

Lemma C2_witness :
  success (predict_best_price sqrt6 (load_models broken_files) silent_world
                              demo_request true true true)
  = false.
Proof.
  apply (proj1 (proj2 (proj2
           (C2_no_source_request_fails sqrt6 broken_files silent_world
              demo_request true true true [] eq_refl)))).
Defined.

(** The predictor that [load_models] leaves when the random forest is
    missing has no regression source, and the world has no forecast; its
    answer is the "Models not loaded" failure, which carries a message
    and not the kind NoComputablePrice. *)
Lemma C2_counterexample :
  load_models broken_files = unloaded_predictor
  /\ predict_with_ml_models unloaded_predictor
       (prepare_features unloaded_predictor silent_world demo_request)
     = []
  /\ predict_with_prophet silent_world (request_name demo_request) 220 = None
  /\ predict_best_price sqrt6 unloaded_predictor silent_world demo_request
                        true true true
     = Failure "Models not loaded. Run train_model.py first."
  /\ error (predict_best_price sqrt6 unloaded_predictor silent_world
                               demo_request true true true)
     <> Some NoComputablePrice.
Proof.
  split; [reflexivity|].
  split; [reflexivity|]. split; [reflexivity|]. split; [reflexivity|].
  discriminate.
Qed.

Lemma C1_witness :
  ensemble_price scenario_ml None 220 == 16580 # 57
  /\ ensemble_price [] None 220 == 242.
Proof.
  pose proof (C1_weighted_fusion sqrt6 scenario_ml None disabled_sentiment
                disabled_trends None 220) as (_ & _ & _ & _ & Hpos & _).
  pose proof (C1_weighted_fusion sqrt6 [] None disabled_sentiment
                disabled_trends None 220)
    as (_ & _ & _ & _ & _ & _ & Hnone & _).
  split.
  - rewrite Hpos; reflexivity.
  - rewrite Hnone; reflexivity.
Defined.

(** With regression predictions of 300 and 280 and a 30-day forecast
    whose price is zero, the base estimate is 16580/57 (290.88), the
    average of the two regression prices alone, where the formula over
    the three sources gives 348180/1537 (226.53). *)
Lemma C1_counterexample :
  option_map Prophet.predicted_price_30d
             (predict_with_prophet falling_world "Yeezy" 220)
  = Some (Some (Py.round 0 2))
  /\ ensemble_price scenario_ml
       (predict_with_prophet falling_world "Yeezy" 220) 220
     == 16580 # 57
  /\ spec_base_estimate scenario_ml
       (predict_with_prophet falling_world "Yeezy" 220) 220
     == 348180 # 1537
  /\ ~ ensemble_price scenario_ml
         (predict_with_prophet falling_world "Yeezy" 220) 220
       == spec_base_estimate scenario_ml
            (predict_with_prophet falling_world "Yeezy" 220) 220.
Proof.
  split; [vm_compute; reflexivity|].
  split; [vm_compute; reflexivity|].
  split; [vm_compute; reflexivity|].
  vm_compute. discriminate.
Qed.

(** * Further properties of the service *)

(** ** More on rounding *)

(** Reads a comparison result as an order between rationals. *)
Ltac compare_order H :=
  match type of H with
  | (_ ?= _) = Eq => apply Qeq_alt in H
  | (_ ?= _) = Lt => apply Qlt_alt in H
  | (_ ?= _) = Gt => apply Qgt_alt in H
  end.

Lemma round_half_even_floor (x : Q) :
  (Qfloor x <= Py.round_half_even x <= Qfloor x + 1)%Z.
Proof.
  unfold Py.round_half_even.
  destruct (x - inject_Z (Qfloor x) ?= 1 # 2);
    [destruct (Z.even (Qfloor x))|..]; lia.
Qed.

Lemma round_half_even_mono (x y : Q) :
  x <= y -> (Py.round_half_even x <= Py.round_half_even y)%Z.
Proof.
  intros H.
  pose proof (Qfloor_resp_le x y H) as F.
  pose proof (round_half_even_floor x) as Bx.
  pose proof (round_half_even_floor y) as By.
  destruct (Z.eq_dec (Qfloor x) (Qfloor y)) as [E|NE]; [|lia].
  unfold Py.round_half_even in *. rewrite <- E in *.
  destruct (x - inject_Z (Qfloor x) ?= 1 # 2) eqn:Cx;
    destruct (y - inject_Z (Qfloor x) ?= 1 # 2) eqn:Cy;
    try lia; compare_order Cx; compare_order Cy;
    try lra; destruct (Z.even (Qfloor x)); lia.
Qed.

Lemma scale_positive (n : nat) : 0 < inject_Z (10 ^ Z.of_nat n).
Proof.
  change 0 with (inject_Z 0). rewrite <- Zlt_Qlt.
  apply Z.pow_pos_nonneg; lia.
Qed.

Lemma round_mono (x y : Q) (n : nat) :
  x <= y -> Py.round x n <= Py.round y n.
Proof.
  intros H. unfold Py.round.
  pose proof (scale_positive n) as S.
  set (s := inject_Z (10 ^ Z.of_nat n)) in *.
  assert (M : x * s <= y * s) by nra.
  apply round_half_even_mono in M. rewrite Zle_Qle in M.
  apply Qle_shift_div_l; [exact S|].
  unfold Qdiv. rewrite <- Qmult_assoc, (Qmult_comm (/ s)), Qmult_inv_r; lra.
Qed.

Lemma round_half_even_error (y : Q) :
  - (1 # 2) <= inject_Z (Py.round_half_even y) - y <= 1 # 2.
Proof.
  pose proof (Qfloor_le y) as L. pose proof (Qlt_floor y) as U.
  rewrite inject_Z_plus in U. change (inject_Z 1) with 1 in U.
  unfold Py.round_half_even.
  destruct (y - inject_Z (Qfloor y) ?= 1 # 2) eqn:C.
  - apply Qeq_alt in C. destruct (Z.even (Qfloor y));
      [|rewrite inject_Z_plus; change (inject_Z 1) with 1]; lra.
  - apply Qlt_alt in C. lra.
  - apply Qgt_alt in C. rewrite inject_Z_plus.
    change (inject_Z 1) with 1. lra.
Qed.

Lemma round2_error (x : Q) :
  - (1 # 200) <= Py.round x 2 - x <= 1 # 200.
Proof.
  pose proof (round_half_even_error (x * 100)) as E.
  unfold Py.round. change (inject_Z (10 ^ Z.of_nat 2)) with 100.
  unfold Qdiv. change (/ 100) with (1 # 100). lra.
Qed.

Lemma round_zero (n : nat) : Py.round 0 n == 0.
Proof.
  unfold Py.round.
  rewrite (round_half_even_compat (0 * inject_Z (10 ^ Z.of_nat n)) 0)
    by ring.
  change (inject_Z (Py.round_half_even 0)) with 0.
  unfold Qdiv. ring.
Qed.

(** X21.  The price the fusion returns is within half a cent of the
    blended, adjusted estimate it rounds, and so is the change against
    the retail price. *)
Theorem best_price_within_half_cent :
  forall (np_sqrt : Q -> Q) ml prophet sentiment trends groq retail,
    let final_price :=
      final_price_of (ensemble_price ml prophet retail) sentiment trends
                     groq in
    let result :=
      calculate_ensemble_prediction np_sqrt ml prophet sentiment trends groq
                                    retail in
    - (1 # 200) <= Ensemble.best_predicted_price result - final_price
                <= 1 # 200
    /\ - (1 # 200)
       <= Ensemble.price_change result - (final_price - retail)
       <= 1 # 200
    /\ Ensemble.mid result = Ensemble.best_predicted_price result.
Proof.
  intros np_sqrt ml prophet sentiment trends groq retail final_price result.
  split; [apply round2_error|]. split; [apply round2_error | reflexivity].
Qed.

(** ** The price range *)

Lemma sqrt6_nonneg (x : Q) : 0 <= sqrt6 x.
Proof.
  unfold sqrt6, Qle. simpl. rewrite Z.mul_1_r. apply Z.sqrt_nonneg.
Qed.

Lemma price_std_nonneg (np_sqrt : Q -> Q) (prices : list Q) (final : Q) :
  (forall x, 0 <= np_sqrt x) ->
  ((List.length prices < 2)%nat -> 0 <= final) ->
  0 <= price_std_of np_sqrt prices final.
Proof.
  intros Hs Hf. unfold price_std_of.
  destruct (1 <? List.length prices)%nat eqn:E.
  - apply Hs.
  - apply Nat.ltb_ge in E. assert (0 <= final) by (apply Hf; lia). lra.
Qed.

(** X6.  When the square root is never negative, and the final price is
    not negative in case there are fewer than two price sources, the
    reported range is ordered: low, then mid, then high. *)
Theorem price_range_ordered :
  forall (np_sqrt : Q -> Q) ml prophet sentiment trends groq retail,
    (forall x, 0 <= np_sqrt x) ->
    ((List.length (price_sources ml prophet) < 2)%nat ->
     0 <= final_price_of (ensemble_price ml prophet retail) sentiment trends
                         groq) ->
    let result :=
      calculate_ensemble_prediction np_sqrt ml prophet sentiment trends groq
                                    retail in
    Ensemble.low result <= Ensemble.mid result <= Ensemble.high result.
Proof.
  intros np_sqrt ml prophet sentiment trends groq retail Hs Hf result.
  unfold result, calculate_ensemble_prediction. simpl.
  rewrite predictions_list_sources.
  fold (ensemble_price ml prophet retail).
  fold (final_price_of (ensemble_price ml prophet retail) sentiment trends
                       groq).
  set (final := final_price_of _ _ _ _) in *.
  assert (S : 0 <= price_std_of np_sqrt
                     (map src_price (price_sources ml prophet)) final).
  { apply price_std_nonneg; [exact Hs|]. rewrite length_map. exact Hf. }
  split; apply round_mono; lra.
Qed.

Lemma price_range_ordered_witness :
  Ensemble.low
    (calculate_ensemble_prediction sqrt6 scenario_ml None disabled_sentiment
                                   disabled_trends None 220)
  <= Ensemble.mid
       (calculate_ensemble_prediction sqrt6 scenario_ml None
                                      disabled_sentiment disabled_trends
                                      None 220)
  <= Ensemble.high
       (calculate_ensemble_prediction sqrt6 scenario_ml None
                                      disabled_sentiment disabled_trends
                                      None 220).
Proof.
  apply (price_range_ordered sqrt6 scenario_ml None disabled_sentiment
                             disabled_trends None 220 sqrt6_nonneg).
  simpl. lia.
Defined.

(** ** The LLM blend *)

(** X9.  An LLM analysis that names no price, or no confidence, leaves
    the running estimate as it is; one that is confident moves the
    estimate towards its price by a tenth of the gap; the blended price
    never leaves the interval between the running estimate and the LLM
    price. *)
Theorem llm_blend_properties :
  forall (running : Q) (g : Groq.t),
    (Groq.adjusted_price g = None -> blend_llm running (Some g) == running)
    /\ (Groq.confidence g = None -> blend_llm running (Some g) = running)
    /\ (forall price,
          Groq.adjusted_price g = Some price ->
          0.6 < llm_confidence g ->
          blend_llm running (Some g) - running == 0.1 * (price - running))
    /\ Qmin running (llm_price g running)
       <= blend_llm running (Some g)
       <= Qmax running (llm_price g running).
Proof.
  intros running g. unfold blend_llm, llm_price, llm_confidence.
  split; [|split; [|split]].
  - intros ->. simpl. destruct (Py.gt _ _); ring.
  - intros ->. reflexivity.
  - intros price -> H. simpl in *. apply gt_true in H. rewrite H. ring.
  - set (p := or_default (Groq.adjusted_price g) running).
    pose proof (Q.le_min_l running p). pose proof (Q.le_min_r running p).
    pose proof (Q.le_max_l running p). pose proof (Q.le_max_r running p).
    destruct (Py.gt _ _); lra.
Qed.

Lemma llm_blend_witness :
  blend_llm 300 (Some (Groq.mk (Some 400) (Some 0.8) None 0.10 "LLM"))
  - 300
  == 0.1 * (400 - 300).
Proof.
  apply (proj1 (proj2 (proj2
           (llm_blend_properties 300
              (Groq.mk (Some 400) (Some 0.8) None 0.10 "LLM")))));
    reflexivity.
Defined.

(** ** The breakdown *)

Lemma fold_add_ml_breakdown (ml : list (string * MLPred.t)) :
  forall acc,
    List.length (model_breakdown (fold_left add_ml ml acc))
    = (List.length (model_breakdown acc) + List.length ml)%nat.
Proof.
  induction ml as [|[k p] ml IH]; intros acc; simpl.
  - lia.
  - rewrite IH. simpl. rewrite length_app. simpl. lia.
Qed.

Lemma collect_breakdown ml prophet :
  List.length (model_breakdown (collect ml prophet))
  = List.length (price_sources ml prophet).
Proof.
  unfold collect, price_sources, add_prophet, prophet_sources.
  rewrite length_app, length_map.
  destruct prophet as [p|];
    [destruct (Prophet.predicted_price_30d p) as [price|];
     [destruct (Py.truthy price)|]|];
    simpl; try rewrite length_app; rewrite fold_add_ml_breakdown; simpl; lia.
Qed.

(** X7.  [models_used] counts one entry for each price source, one for
    the LLM analysis when there is one, and always two more, for
    sentiment and trends, even when these are switched off. *)
Theorem models_used_count :
  forall (np_sqrt : Q -> Q) ml prophet sentiment trends groq retail,
    let result :=
      calculate_ensemble_prediction np_sqrt ml prophet sentiment trends groq
                                    retail in
    Ensemble.models_used result
    = (List.length (price_sources ml prophet)
       + match groq with Some _ => 1 | None => 0 end + 2)%nat
    /\ Ensemble.models_used result
       = List.length (Ensemble.model_breakdown result).
Proof.
  intros np_sqrt ml prophet sentiment trends groq retail result.
  split; [|reflexivity].
  unfold result, calculate_ensemble_prediction. simpl.
  rewrite !length_app, collect_breakdown.
  destruct groq; simpl; lia.
Qed.

(** ** Confidence notes and single sources *)

Lemma confidence_note_of (x c : Q) :
  Recommendation.confidence_note (get_recommendation x c)
  = if Py.lt c 0.7 then "Low confidence - limited historical data"
    else if Py.gt c 0.9 then "High confidence prediction"
    else "".
Proof.
  unfold get_recommendation.
  destruct (Py.gt x 75); [reflexivity|].
  destruct (Py.gt x 40); [reflexivity|].
  destruct (Py.gt x 15); [reflexivity|].
  destruct (Py.gt x 0); [reflexivity|].
  destruct (Py.gt x (-15)); reflexivity.
Qed.

(** X10.  With fewer than two price sources the fusion reports the
    confidence 0.8 and a range of ten per cent either side of the final
    price, and the recommendation that goes with it carries no confidence
    note, whatever the price change. *)
Theorem few_sources_fixed_confidence :
  forall (np_sqrt : Q -> Q) ml prophet sentiment trends groq retail,
    (List.length (price_sources ml prophet) < 2)%nat ->
    let final_price :=
      final_price_of (ensemble_price ml prophet retail) sentiment trends
                     groq in
    let result :=
      calculate_ensemble_prediction np_sqrt ml prophet sentiment trends groq
                                    retail in
    Ensemble.overall_confidence result == 0.8
    /\ Ensemble.low result = Py.round (final_price - final_price * 0.1) 2
    /\ Ensemble.high result = Py.round (final_price + final_price * 0.1) 2
    /\ forall pct,
         Recommendation.confidence_note
           (get_recommendation pct (Ensemble.overall_confidence result))
         = "".
Proof.
  intros np_sqrt ml prophet sentiment trends groq retail H final_price result.
  assert (E : (1 <? List.length (map src_price (price_sources ml prophet)))%nat
              = false).
  { rewrite length_map. apply Nat.ltb_ge. lia. }
  assert (C : Ensemble.overall_confidence result = Py.round 0.80 2).
  { unfold result, calculate_ensemble_prediction. simpl.
    rewrite predictions_list_sources. unfold overall_confidence_of.
    now rewrite E. }
  assert (S : forall x,
            price_std_of np_sqrt (map src_price (price_sources ml prophet)) x
            = x * 0.1).
  { intros x. unfold price_std_of. now rewrite E. }
  split; [rewrite C; reflexivity|].
  split; [|split].
  - unfold result, calculate_ensemble_prediction. simpl.
    rewrite predictions_list_sources, S. reflexivity.
  - unfold result, calculate_ensemble_prediction. simpl.
    rewrite predictions_list_sources, S. reflexivity.
  - intros pct. rewrite confidence_note_of, C. reflexivity.
Qed.

Lemma few_sources_witness :
  Ensemble.overall_confidence
    (calculate_ensemble_prediction sqrt6
       [("random_forest", MLPred.mk 300 0.93 0.35 "Tree-based Ensemble")]
       None disabled_sentiment disabled_trends None 220)
  == 0.8.
Proof.
  apply (few_sources_fixed_confidence sqrt6
           [("random_forest", MLPred.mk 300 0.93 0.35 "Tree-based Ensemble")]
           None disabled_sentiment disabled_trends None 220).
  simpl. lia.
Defined.

(** ** Requests without a positive retail price *)

Lemma result_percent (np_sqrt : Q -> Q) ml prophet sentiment trends groq
    retail :
  Ensemble.price_change_percent
    (calculate_ensemble_prediction np_sqrt ml prophet sentiment trends groq
                                   retail)
  = Py.round
      (if Py.gt retail 0
       then (final_price_of (ensemble_price ml prophet retail) sentiment
                            trends groq - retail) / retail * 100
       else 0) 2.
Proof. reflexivity. Qed.

(** X8.  A loaded predictor asked, in a request and with an LLM answer
    of the types the code converts, about a retail price of zero or less
    divides by nothing: it reports a change of zero per cent and, zero
    being in the band of CAUTION, recommends CAUTION whatever price it
    predicts. *)
Theorem nonpositive_retail_is_caution :
  forall (np_sqrt : Q -> Q) self w data
         (include_sentiment include_trends include_groq : bool) (retail : Q),
    loaded self = true ->
    Request.ill_typed data = None ->
    Groq.well_typed (groq_answer self w data include_groq) = true ->
    Request.retail_price data = Some retail ->
    retail <= 0 ->
    exists result rec,
      predict_best_price np_sqrt self w data include_sentiment
                         include_trends include_groq
      = Success (request_name data) retail result rec
      /\ Ensemble.price_change_percent result == 0
      /\ Recommendation.action rec = "CAUTION".
Proof.
  intros np_sqrt self w data include_sentiment include_trends include_groq
         retail Hl Ht Hg Hr Hneg.
  destruct (predict_best_price_answers np_sqrt self w data include_sentiment
              include_trends include_groq Hl Ht Hg) as [analysis E].
  cbv zeta in E. rewrite E, Hr. simpl or_default.
  eexists. eexists. split; [reflexivity|].
  apply gt_false in Hneg.
  rewrite result_percent, Hneg.
  split; [apply round_zero | reflexivity].
Qed.

Lemma nonpositive_retail_witness :
  exists result rec,
    predict_best_price sqrt6 demo_predictor silent_world free_request
                       true true true
    = Success "Promo Pair" 0 result rec
    /\ Recommendation.action rec = "CAUTION".
Proof.
  destruct (nonpositive_retail_is_caution sqrt6 demo_predictor silent_world
              free_request true true true 0 eq_refl eq_refl eq_refl eq_refl
              (Qle_refl 0))
    as (result & rec & H & _ & A).
  exists result, rec. split; assumption.
Defined.

(** ** What the regression models emit *)

Lemma max_zero_nonneg (x : Q) : 0 <= Py.max 0 x.
Proof. apply max_lower. Qed.

Lemma max_zero_positive (x : Q) : 0 < x -> Py.max 0 x = x.
Proof.
  intros H. destruct (max_cases 0 x) as [[_ E] | [L _]]; [exact E | lra].
Qed.

Ltac ml_cases self features :=
  unfold predict_with_ml_models, tree_prediction, linear_prediction;
  destruct (lookup "random_forest" (models self)) as [rf|];
  destruct (lookup "gradient_boosting" (models self)) as [gb|];
  destruct (scaler self features) as [scaled|];
  destruct (lookup "ridge_regression" (models self)) as [ridge|];
  destruct (lookup "linear_regression" (models self)) as [lr|];
  try destruct (reasonable (ridge scaled) features) eqn:Rr;
  try destruct (reasonable (lr scaled) features) eqn:Rl;
  simpl.

Lemma ml_predictions_positive_weights (self : EnsemblePricePredictor)
    (features : list Q) :
  Forall (fun item => 0 <= MLPred.predicted_price (snd item)
                      /\ 0 < MLPred.weight (snd item)
                      /\ 0 < MLPred.confidence (snd item))
         (predict_with_ml_models self features).
Proof.
  ml_cases self features;
    repeat (constructor;
            [simpl; split; [apply max_zero_nonneg | split; reflexivity]|]);
    constructor.
Qed.

(** X3.  Whatever the models answer, every regression prediction that is
    emitted has a price of zero or more; the keys come in the order
    random forest, gradient boosting, ridge, linear, each at most once;
    the prior weights add up to 0.8 at most; and an emitted ridge or
    linear price is the model's own answer, strictly between zero and
    five times the retail estimate. *)
Theorem ml_predictions_invariants :
  forall (self : EnsemblePricePredictor) (features : list Q),
    let out := predict_with_ml_models self features in
    Forall (fun item => 0 <= MLPred.predicted_price (snd item)) out
    /\ NoDup (keys out)
    /\ (exists a b c d : bool,
          keys out
          = (if a then ["random_forest"] else [])
            ++ (if b then ["gradient_boosting"] else [])
            ++ (if c then ["ridge_regression"] else [])
            ++ (if d then ["linear_regression"] else []))
    /\ sumQ (map (fun item => MLPred.weight (snd item)) out) <= 0.8
    /\ (forall key p,
          key = "ridge_regression" \/ key = "linear_regression" ->
          lookup key out = Some p ->
          0 < MLPred.predicted_price p < retail_est features * 5).
Proof.
  intros self features out.
  split.
  { eapply Forall_impl; [|apply ml_predictions_positive_weights].
    intros item H. apply H. }
  unfold out.
  ml_cases self features;
    (split; [repeat constructor; simpl; intuition discriminate|]);
    (split;
     [first
        [ now exists true, true, true, true
        | now exists true, true, true, false
        | now exists true, true, false, true
        | now exists true, true, false, false
        | now exists true, false, true, true
        | now exists true, false, true, false
        | now exists true, false, false, true
        | now exists true, false, false, false
        | now exists false, true, true, true
        | now exists false, true, true, false
        | now exists false, true, false, true
        | now exists false, true, false, false
        | now exists false, false, true, true
        | now exists false, false, true, false
        | now exists false, false, false, true
        | now exists false, false, false, false ]|]);
    (split; [unfold Qle; simpl; lia|]);
    intros key p [-> | ->]; simpl; intros [= <-]; simpl;
    try apply reasonable_spec in Rr; try apply reasonable_spec in Rl;
    try (rewrite max_zero_positive; [assumption | tauto]).
Qed.

Lemma ml_predictions_witness :
  lookup "linear_regression"
         (predict_with_ml_models demo_predictor
            (prepare_features demo_predictor silent_world demo_request))
  = Some (MLPred.mk 1099.780 0.72 0.05 "Linear Baseline")
  /\ 0 < 1099.780 < 220 * 5.
Proof.
  split; [reflexivity|].
  apply (proj2 (proj2 (proj2 (proj2
           (ml_predictions_invariants demo_predictor
              (prepare_features demo_predictor silent_world demo_request)))))
           "linear_regression"
           (MLPred.mk 1099.780 0.72 0.05 "Linear Baseline")).
  - now right.
  - reflexivity.
Defined.

(** ** The base estimate of a predictor that holds its models *)

Lemma prophet_sources_positive (w : World.t) (name : string) (retail : Q) :
  Forall (fun s => 0 < src_weight s /\ 0 < src_confidence s)
         (prophet_sources (predict_with_prophet w name retail)).
Proof.
  destruct (predict_with_prophet w name retail) as [p|] eqn:E;
    [|constructor].
  destruct (prophet_constants w name retail p E) as [Hc Hw].
  unfold prophet_sources.
  destruct (Prophet.predicted_price_30d p) as [price|]; [|constructor].
  destruct (Py.truthy price); constructor; [|constructor].
  simpl. rewrite Hc, Hw. split; reflexivity.
Qed.

Lemma sources_positive (self : EnsemblePricePredictor) (features : list Q)
    (w : World.t) (name : string) (retail : Q) :
  Forall (fun s => 0 < src_weight s /\ 0 < src_confidence s)
         (price_sources (predict_with_ml_models self features)
                        (predict_with_prophet w name retail)).
Proof.
  unfold price_sources. apply Forall_app. split.
  - apply Forall_map.
    eapply Forall_impl; [|apply ml_predictions_positive_weights].
    intros item H. simpl in *. destruct H as (_ & Hw & Hc). now split.
  - apply prophet_sources_positive.
Qed.

Lemma sources_bracketed (srcs : list Source) :
  Forall (fun s => Qlist_min (map src_price srcs) <= src_price s
                   <= Qlist_max (map src_price srcs)) srcs.
Proof.
  apply Forall_forall. intros s Hs. split.
  - apply Qlist_min_le. now apply in_map.
  - apply Qlist_max_ge. now apply in_map.
Qed.

(** X4.  A predictor that holds its random forest always has a price
    source: the total effective weight is positive, so the fallback
    price is never used, the base estimate does not depend on the retail
    price handed to the fusion, and it lies between the least and the
    greatest source price. *)
Theorem held_models_average :
  forall (self : EnsemblePricePredictor) (features : list Q) (w : World.t)
         (name : string) (retail : Q),
    lookup "random_forest" (models self) <> None ->
    let ml := predict_with_ml_models self features in
    let prophet := predict_with_prophet w name retail in
    let prices := map src_price (price_sources ml prophet) in
    0 < total_weight (collect ml prophet)
    /\ (forall r,
          Qlist_min prices <= ensemble_price ml prophet r <= Qlist_max prices)
    /\ (forall r r',
          ensemble_price ml prophet r == ensemble_price ml prophet r').
Proof.
  intros self features w name retail Hrf ml prophet prices.
  assert (Hne : price_sources ml prophet <> []).
  { unfold price_sources. intros E. apply app_eq_nil in E as [E _].
    apply map_eq_nil in E.
    now apply (tree_always_emitted self features Hrf). }
  pose proof (sources_positive self features w name retail) as Hpos.
  fold ml prophet in Hpos.
  pose proof (total_weight_positive _ Hne (effective_weight_positive _ Hpos))
    as HW.
  split; [now rewrite collect_weight|].
  split.
  - intros r. apply ensemble_price_between; try assumption.
    apply sources_bracketed.
  - intros r r'.
    rewrite (ensemble_price_positive ml prophet r HW).
    rewrite (ensemble_price_positive ml prophet r' HW). reflexivity.
Qed.

Lemma held_models_witness :
  ensemble_price
    (predict_with_ml_models demo_predictor
       (prepare_features demo_predictor silent_world demo_request))
    (predict_with_prophet silent_world "Yeezy" 220) 220
  == ensemble_price
       (predict_with_ml_models demo_predictor
          (prepare_features demo_predictor silent_world demo_request))
       (predict_with_prophet silent_world "Yeezy" 220) 1.
Proof.
  apply (held_models_average demo_predictor
           (prepare_features demo_predictor silent_world demo_request)
           silent_world "Yeezy" 220).
  discriminate.
Defined.

(** X5.  When the retail price is not negative and the 30-day forecast
    price, if there is one, is not negative either, the base estimate is
    not negative, whatever the regression models answer. *)
Theorem base_estimate_nonnegative :
  forall (self : EnsemblePricePredictor) (features : list Q) (w : World.t)
         (name : string) (retail : Q),
    0 <= retail ->
    (forall p price,
       predict_with_prophet w name retail = Some p ->
       Prophet.predicted_price_30d p = Some price -> 0 <= price) ->
    0 <= ensemble_price (predict_with_ml_models self features)
                        (predict_with_prophet w name retail) retail.
Proof.
  intros self features w name retail Hr Hp.
  set (ml := predict_with_ml_models self features).
  set (prophet := predict_with_prophet w name retail).
  destruct (price_sources ml prophet) as [|s0 rest] eqn:E.
  - rewrite ensemble_price_fallback; [lra|]. rewrite E. simpl. lra.
  - pose proof (sources_positive self features w name retail) as Hpos.
    fold ml prophet in Hpos.
    apply (ensemble_price_between 0
             (Qlist_max (map src_price (price_sources ml prophet)))).
    + rewrite E. discriminate.
    + exact Hpos.
    + assert (N : Forall (fun s => 0 <= src_price s)
                         (price_sources ml prophet)).
      { unfold price_sources. apply Forall_app. split.
        - apply Forall_map.
          eapply Forall_impl; [|apply ml_predictions_positive_weights].
          intros item H. simpl in *. now destruct H as (Hn & _).
        - unfold prophet_sources.
          destruct prophet as [p|] eqn:Ep; [|constructor].
          destruct (Prophet.predicted_price_30d p) as [price|] eqn:E30;
            [|constructor].
          destruct (Py.truthy price); constructor; [|constructor].
          simpl. now apply (Hp p). }
      pose proof (sources_bracketed (price_sources ml prophet)) as B.
      rewrite Forall_forall in *. intros s Hs. split.
      * now apply N.
      * now apply B.
Qed.

Lemma base_estimate_nonnegative_witness :
  0 <= ensemble_price
         (predict_with_ml_models demo_predictor
            (prepare_features demo_predictor short_history_world
                              demo_request))
         (predict_with_prophet short_history_world "Yeezy" 220) 220.
Proof.
  apply base_estimate_nonnegative.
  - discriminate.
  - intros p price Hp H30. vm_compute in Hp.
    injection Hp as <-. simpl in H30. injection H30 as <-. discriminate.
Defined.

(** ** When there is no forecast source *)

Lemma option_map_nth_none {A B : Type} (f : A -> B) (l : list A) (n : nat) :
  option_map f (nth_error l n) = None <-> (List.length l <= n)%nat.
Proof.
  rewrite <- nth_error_None.
  destruct (nth_error l n); simpl; split; congruence.
Qed.

(** X11.  The ensemble gets no forecast exactly when the sneaker name is
    empty, or reading the price history raises, or the history reports no
    success, or its forecast is empty; the retail price plays no part.
    When it gets one, the 30-day price is always there, the 7-day price
    is missing exactly when the forecast has six points or fewer, and the
    14-day price exactly when it has thirteen or fewer. *)
Theorem prophet_none_iff :
  forall (w : World.t) (name : string) (retail : Q),
    (predict_with_prophet w name retail = None
     <-> name = ""
         \/ World.get_sneaker_price_history w name = None
         \/ exists h,
              World.get_sneaker_price_history w name = Some h
              /\ (History.success h = false \/ History.forecast h = []))
    /\ (forall retail',
          predict_with_prophet w name retail'
          = predict_with_prophet w name retail)
    /\ (forall p h,
          predict_with_prophet w name retail = Some p ->
          World.get_sneaker_price_history w name = Some h ->
          Prophet.predicted_price_30d p <> None
          /\ (Prophet.predicted_price_7d p = None
              <-> (List.length (History.forecast h) <= 6)%nat)
          /\ (Prophet.predicted_price_14d p = None
              <-> (List.length (History.forecast h) <= 13)%nat)).
Proof.
  intros w name retail. split; [|split; [reflexivity|]].
  - unfold predict_with_prophet.
    destruct (String.eqb_spec name "") as [->|Hn].
    { split; [now left | reflexivity]. }
    destruct (World.get_sneaker_price_history w name) as [h|].
    2:{ split; [now right; left | reflexivity]. }
    destruct (History.success h) eqn:Hs; simpl.
    + destruct (History.forecast h) as [|pt rest] eqn:Hf; simpl.
      * split; [|reflexivity]. intros _. right. right. exists h. auto.
      * split; [discriminate|].
        intros [E | [E | (h' & [= <-] & [E | E])]];
          congruence.
    + split; [|reflexivity]. intros _. right. right. exists h. auto.
  - intros p h Hp Hh. unfold predict_with_prophet in Hp. rewrite Hh in Hp.
    destruct (String.eqb name ""); [discriminate|].
    destruct (History.success h); [|discriminate]. cbn [andb] in Hp.
    destruct (List.length (History.forecast h) =? 0)%nat eqn:N;
      [discriminate|].
    cbn [negb] in Hp. injection Hp as <-. apply Nat.eqb_neq in N.
    cbn [Prophet.predicted_price_30d Prophet.predicted_price_7d
         Prophet.predicted_price_14d].
    split; [|split].
    + unfold last_item. intros E. apply option_map_nth_none in E. lia.
    + exact (option_map_nth_none Forecast.predicted_price
               (History.forecast h) 6).
    + exact (option_map_nth_none Forecast.predicted_price
               (History.forecast h) 13).
Qed.

(** ** Direction and size of the trend factor *)

(** X12.  For search interest that is neither rising nor falling the
    trend factor is exactly one.  For rising and for falling interest
    alike it is one plus a two-hundredth of the gap between current and
    average interest, clamped to [[0.8, 1.2]]: above one when current
    interest is above average and below one when it is below, whatever
    the direction says.  An answer without the keys counts as 50, 50 and
    stable. *)
Theorem trends_factor_direction :
  forall (w : World.t) (name : string) (d : Interest.t),
    World.get_live_interest w name = Some d ->
    let t := get_trends_adjustment w name in
    let current := Trends.current_interest t in
    let average := Trends.avg_interest t in
    let direction := Trends.trend_direction t in
    current = or_default (Interest.current_interest d) 50
    /\ average = or_default (Interest.avg_interest d) 50
    /\ direction = or_default (Interest.trend_direction d) "stable"
    /\ (direction <> "rising" -> direction <> "falling" ->
        Trends.adjustment_factor t == 1)
    /\ (direction = "rising" \/ direction = "falling" ->
        Trends.adjustment_factor t
        == clamp (1 + (current - average) / 200) 0.8 1.2
        /\ (average < current -> 1 < Trends.adjustment_factor t)
        /\ (current < average -> Trends.adjustment_factor t < 1)
        /\ (current == average -> Trends.adjustment_factor t == 1)).
Proof.
  intros w name d Hd t current average direction.
  subst current average direction t. unfold get_trends_adjustment.
  rewrite Hd. simpl.
  set (c := or_default (Interest.current_interest d) 50).
  set (a := or_default (Interest.avg_interest d) 50).
  set (dir := or_default (Interest.trend_direction d) "stable").
  split; [reflexivity|]. split; [reflexivity|]. split; [reflexivity|].
  assert (K : forall x,
            Py.min 1.2 (Py.max 0.8 x) == clamp x 0.8 1.2
            /\ (1 < x -> 1 < Py.min 1.2 (Py.max 0.8 x))
            /\ (x < 1 -> Py.min 1.2 (Py.max 0.8 x) < 1)
            /\ (x == 1 -> Py.min 1.2 (Py.max 0.8 x) == 1)).
  { intros x. unfold clamp.
    destruct (max_cases 0.8 x) as [[H1 ->] | [H1 ->]];
      [destruct (min_cases 1.2 x) as [[H2 ->] | [H2 ->]]
      | destruct (min_cases 1.2 0.8) as [[H2 ->] | [H2 ->]]];
      (split;
       [ destruct (Q.min_spec 1.2 x) as [[? E] | [? E]]; rewrite E;
         [ destruct (Q.max_spec 0.8 1.2) as [[? F] | [? F]]
         | destruct (Q.max_spec 0.8 x) as [[? F] | [? F]] ];
         rewrite F; lra
       | repeat split; intros; lra ]). }
  split.
  - intros Hr Hf.
    destruct (String.eqb_spec dir "rising"); [contradiction|].
    destruct (String.eqb_spec dir "falling"); [contradiction|].
    reflexivity.
  - intros Hdir.
    assert (E : (if String.eqb dir "rising" then 1.0 + (c - a) / 200
                 else if String.eqb dir "falling"
                      then 1.0 - (a - c) / 200 else 1.0)
                == 1 + (c - a) / 200).
    { destruct Hdir as [-> | ->]; simpl; field. }
    set (x := if String.eqb dir "rising" then _ else _) in *.
    destruct (K x) as (K1 & K2 & K3 & K4).
    assert (Ex : (c - a) / 200 == (c - a) * (1 # 200)) by field.
    split; [rewrite K1; unfold clamp; now rewrite E|].
    split; [|split]; intros H; [apply K2 | apply K3 | apply K4]; lra.
Qed.

Lemma trends_factor_direction_witness :
  Trends.adjustment_factor (get_trends_adjustment rising_world "Yeezy")
  == clamp (1 + (100 - 40) / 200) 0.8 1.2.
Proof.
  apply (trends_factor_direction rising_world "Yeezy"
           (Interest.mk (Some 100) (Some 40) (Some "rising")) eq_refl).
  now left.
Defined.

(** ** Search interest that says nothing *)

Lemma neutral_direction (w : World.t) (name : string) (d : Interest.t) :
  World.get_live_interest w name = Some d ->
  or_default (Interest.trend_direction d) "stable" <> "rising" ->
  or_default (Interest.trend_direction d) "stable" <> "falling" ->
  Trends.adjustment_factor (get_trends_adjustment w name) == 1.
Proof.
  intros Hd Hr Hf. unfold get_trends_adjustment. rewrite Hd. simpl.
  destruct (String.eqb_spec (or_default (Interest.trend_direction d) "stable")
                            "rising"); [contradiction|].
  destruct (String.eqb_spec (or_default (Interest.trend_direction d) "stable")
                            "falling"); [contradiction|].
  reflexivity.
Qed.

Lemma sum_constant (v : Z) (data : list Z) :
  (forall x, In x data -> x = v) ->
  sumQ (map inject_Z data)
  == inject_Z v * inject_Z (Z.of_nat (List.length data)).
Proof.
  induction data as [|x data IH]; intros H.
  - simpl. ring.
  - cbn [map sumQ fold_right List.length].
    fold (sumQ (map inject_Z data)).
    rewrite IH by (intros y Hy; apply H; now right).
    rewrite (H x) by now left.
    rewrite Nat2Z.inj_succ, <- Z.add_1_r, inject_Z_plus.
    change (inject_Z 1) with 1. ring.
Qed.

Lemma mean_constant (v : Z) (data : list Z) :
  data <> [] ->
  (forall x, In x data -> x = v) ->
  LiveGoogleTrends.mean data == inject_Z v.
Proof.
  intros Hne H. unfold LiveGoogleTrends.mean, np_mean.
  rewrite sum_sumQ, length_map, sum_constant by exact H.
  assert (L : ~ inject_Z (Z.of_nat (List.length data)) == 0).
  { change 0 with (inject_Z 0). rewrite inject_Z_injective.
    destruct data; [congruence | simpl; lia]. }
  field. exact L.
Qed.

Lemma last_in (data : list Z) (d : Z) : data <> [] -> In (last data d) data.
Proof.
  induction data as [|x [|y data] IH]; intros H; [congruence | now left |].
  right. apply IH. discriminate.
Qed.

Lemma constant_trend (v : Z) (data : list Z) :
  (0 <= v)%Z ->
  (forall x, In x data -> x = v) ->
  LiveGoogleTrends.trend_of data = "stable"
  \/ LiveGoogleTrends.trend_of data = "unknown".
Proof.
  intros Hv H. unfold LiveGoogleTrends.trend_of.
  destruct (2 <=? List.length data)%nat eqn:E2; [|now right].
  apply Nat.leb_le in E2. left.
  assert (Hne : data <> []) by (destruct data; [simpl in E2; lia | discriminate]).
  assert (V : 0 <= inject_Z v)
    by (change 0 with (inject_Z 0); now rewrite <- Zle_Qle).
  assert (R : (if (3 <=? List.length data)%nat
               then LiveGoogleTrends.mean
                      (LiveGoogleTrends.tail (List.length data / 3) data)
               else inject_Z (last data 0%Z)) == inject_Z v).
  { destruct (3 <=? List.length data)%nat eqn:E3.
    - apply Nat.leb_le in E3.
      assert (1 <= List.length data / 3)%nat
        by (apply Nat.div_le_lower_bound; lia).
      assert (List.length data / 3 <= List.length data)%nat
        by (apply Nat.Div0.div_le_upper_bound; lia).
      apply mean_constant.
      + intros C. apply (f_equal (@List.length Z)) in C.
        unfold LiveGoogleTrends.tail in C. rewrite length_skipn in C.
        cbn [List.length] in C. lia.
      + intros x Hx. apply H. unfold LiveGoogleTrends.tail in Hx.
        rewrite <- (firstn_skipn (List.length data - List.length data / 3)
                                 data).
        apply in_or_app. now right.
    - rewrite (H (last data 0%Z)); [reflexivity | now apply last_in]. }
  assert (F : (if (3 <=? List.length data)%nat
               then LiveGoogleTrends.mean
                      (LiveGoogleTrends.head (List.length data / 3) data)
               else inject_Z (hd 0%Z data)) == inject_Z v).
  { destruct (3 <=? List.length data)%nat eqn:E3.
    - apply Nat.leb_le in E3.
      assert (1 <= List.length data / 3)%nat
        by (apply Nat.div_le_lower_bound; lia).
      apply mean_constant.
      + intros C. apply (f_equal (@List.length Z)) in C.
        unfold LiveGoogleTrends.head in C. rewrite length_firstn in C.
        cbn [List.length] in C. lia.
      + intros x Hx. apply H. unfold LiveGoogleTrends.head in Hx.
        rewrite <- (firstn_skipn (List.length data / 3) data).
        apply in_or_app. now left.
    - destruct data as [|x data]; [congruence|]. simpl.
      rewrite (H x); [reflexivity | now left]. }
  set (recent := if (3 <=? List.length data)%nat then _ else _) in *.
  set (earlier := if (3 <=? List.length data)%nat then _ else _) in F |- *.
  assert (G : Py.gt recent (earlier * 1.1) = false)
    by (apply gt_false; lra).
  assert (L : Py.lt recent (earlier * 0.9) = false)
    by (apply lt_false; lra).
  now rewrite G, L.
Qed.

(** X13.  Search interest that says nothing leaves the price alone: when
    the request to Google Trends raises, or returns no point, or a single
    point, or the same non-negative value at every point,
    [get_live_interest] reports neither a rising nor a falling direction,
    nor does the trend answer of the ensemble, and the trend factor is
    exactly one. *)
Theorem flat_interest_is_neutral :
  forall (w : World.t) (name : string) (series : option (list Z)),
    World.get_live_interest w name
    = Some (LiveGoogleTrends.get_live_interest series) ->
    (series = None
     \/ exists (v : Z) (data : list Z),
          series = Some data
          /\ (List.length data <= 1)%nat
             \/ (series = Some data /\ (0 <= v)%Z
                 /\ forall x, In x data -> x = v)) ->
    Interest.trend_direction (LiveGoogleTrends.get_live_interest series)
    <> Some "rising"
    /\ Interest.trend_direction (LiveGoogleTrends.get_live_interest series)
       <> Some "falling"
    /\ Trends.trend_direction (get_trends_adjustment w name) <> "rising"
    /\ Trends.trend_direction (get_trends_adjustment w name) <> "falling"
    /\ Trends.adjustment_factor (get_trends_adjustment w name) == 1.
Proof.
  intros w name series Hw H.
  assert (D : or_default
                (Interest.trend_direction
                   (LiveGoogleTrends.get_live_interest series)) "stable"
              = "stable"
              \/ or_default
                   (Interest.trend_direction
                      (LiveGoogleTrends.get_live_interest series)) "stable"
                 = "unknown").
  { destruct H as [-> | (v & data & [[-> Hl] | (-> & Hv & Hc)])].
    - now left.
    - destruct data as [|x [|y data]]; simpl in *; [now right | now right | lia].
    - destruct data as [|x data]; [now right|].
      cbn [LiveGoogleTrends.get_live_interest Interest.trend_direction
           or_default].
      now apply (constant_trend v). }
  assert (T : Trends.trend_direction (get_trends_adjustment w name)
              = or_default
                  (Interest.trend_direction
                     (LiveGoogleTrends.get_live_interest series)) "stable").
  { unfold get_trends_adjustment. rewrite Hw. reflexivity. }
  split; [|split; [|split; [|split]]].
  - intros E. rewrite E in D. destruct D; discriminate.
  - intros E. rewrite E in D. destruct D; discriminate.
  - rewrite T. destruct D as [-> | ->]; discriminate.
  - rewrite T. destruct D as [-> | ->]; discriminate.
  - apply (neutral_direction w name _ Hw);
      destruct D as [-> | ->]; discriminate.
Qed.

Lemma flat_interest_witness :
  Trends.adjustment_factor (get_trends_adjustment flat_world "Yeezy") == 1.
Proof.
  apply (flat_interest_is_neutral flat_world "Yeezy"
           (Some [42; 42; 42; 42; 42; 42; 42]%Z) eq_refl).
  right. exists 42%Z, [42; 42; 42; 42; 42; 42; 42]%Z. right.
  split; [reflexivity|]. split; [lia|].
  intros x Hx. simpl in Hx. intuition.
Defined.

(** ** The linear forecast *)

Lemma max_zero_mono (x y : Q) : x <= y -> Py.max 0 x <= Py.max 0 y.
Proof.
  intros H.
  destruct (max_cases 0 x) as [[? ->] | [? ->]];
    destruct (max_cases 0 y) as [[? ->] | [? ->]]; lra.
Qed.

Lemma round_nonneg (x : Q) (n : nat) : 0 <= x -> 0 <= Py.round x n.
Proof.
  intros H. rewrite <- (round_zero n). now apply round_mono.
Qed.

Lemma linear_point_bounds (normal : nat -> Q -> Q)
    (slope intercept volatility : Q) (n i : nat) :
  let pt := TimeSeries.linear_point normal slope intercept volatility n i in
  0 <= Forecast.predicted_price pt
  /\ 0 <= Forecast.lower_bound pt
  /\ (0 <= volatility ->
      Forecast.lower_bound pt <= Forecast.predicted_price pt
      /\ (0 <= Forecast.upper_bound pt ->
          Forecast.predicted_price pt <= Forecast.upper_bound pt)).
Proof.
  unfold TimeSeries.linear_point. simpl.
  set (p := intercept + slope * inject_Z (Z.of_nat (n + i))
            + normal i (volatility * 0.1)).
  split; [apply round_nonneg, max_zero_nonneg|].
  split; [apply round_nonneg, max_zero_nonneg|].
  intros Hv. split.
  - apply round_mono, max_zero_mono. lra.
  - intros Hu. destruct (Qlt_le_dec (p + volatility) 0) as [Neg | Pos].
    + assert (E : Py.max 0 p = 0).
      { destruct (max_cases 0 p) as [[? _] | [_ ->]]; [lra | reflexivity]. }
      rewrite E, round_zero. exact Hu.
    + apply round_mono.
      destruct (max_cases 0 p) as [[? ->] | [? ->]]; lra.
Qed.



(** ** Prophet and its fallback *)

Section ForecastFacts.

Variable np_sqrt : Q -> Q.
Variable polyfit : list Q -> Q * Q.
Variable normal : nat -> Q -> Q.
Variable PROPHET_AVAILABLE : bool.
Variable prophet : list Q -> nat -> option (list (Q * Q * Q)).

Local Abbreviation simple :=
  (TimeSeries.simple_forecast np_sqrt polyfit normal).
Local Abbreviation forecaster :=
  (TimeSeries.predict_with_prophet np_sqrt polyfit normal PROPHET_AVAILABLE
                                   prophet).

Lemma simple_points_nonneg historical_data periods :
  Forall (fun pt => 0 <= Forecast.predicted_price pt
                    /\ 0 <= Forecast.lower_bound pt)
         (TimeSeries.forecast (simple historical_data periods)).
Proof.
  unfold TimeSeries.simple_forecast.
  destruct historical_data as [df|]; [|constructor].
  destruct (List.length _ <? 5)%nat; [constructor|].
  destruct (polyfit _) as [slope intercept].
  destruct (existsb TimeSeries.ds df); [|constructor]. simpl.
  apply Forall_map, Forall_forall. intros i _.
  match goal with
  | |- context [TimeSeries.linear_point _ _ _ ?v ?n i] =>
      pose proof (linear_point_bounds normal slope intercept v n i) as B
  end.
  simpl in B. tauto.
Qed.

Lemma simple_model_linear historical_data periods :
  TimeSeries.model (simple historical_data periods) <> Some "Prophet".
Proof.
  unfold TimeSeries.simple_forecast.
  destruct historical_data as [df|]; [|discriminate].
  destruct (List.length _ <? 5)%nat; [discriminate|].
  destruct (polyfit _) as [slope intercept].
  destruct (existsb TimeSeries.ds df); discriminate.
Qed.

Lemma prophet_point_nonneg (row : Q * Q * Q) :
  0 <= Forecast.predicted_price (TimeSeries.prophet_point row)
  /\ 0 <= Forecast.lower_bound (TimeSeries.prophet_point row)
  /\ 0 <= Forecast.upper_bound (TimeSeries.prophet_point row).
Proof.
  destruct row as [[yhat lower] upper]. simpl.
  repeat split; apply round_nonneg, max_zero_nonneg.
Qed.

Lemma forecaster_points_nonneg historical_data periods :
  Forall (fun pt => 0 <= Forecast.predicted_price pt
                    /\ 0 <= Forecast.lower_bound pt)
         (TimeSeries.forecast (forecaster historical_data periods)).
Proof.
  unfold TimeSeries.predict_with_prophet.
  destruct PROPHET_AVAILABLE; simpl; [|apply simple_points_nonneg].
  destruct historical_data as [rows|]; [|apply simple_points_nonneg].
  destruct (List.length _ <? 10)%nat; [apply simple_points_nonneg|].
  destruct (prophet _ _) as [future|]; [|apply simple_points_nonneg].
  destruct (List.length future =? 0)%nat; [apply simple_points_nonneg|].
  simpl. apply Forall_map, Forall_forall. intros row _.
  pose proof (prophet_point_nonneg row). tauto.
Qed.

(** X15.  The forecaster is the linear forecast whenever Prophet is not
    installed, the frame has fewer than ten complete rows, or Prophet
    raises or predicts nothing.  Whichever forecast answers, no point has
    a negative price or lower bound; and an answer of the model Prophet
    has at least one point, and no negative upper bound either. *)
Theorem forecaster_fallback :
  forall (historical_data : option (list TimeSeries.Row)) (periods : nat),
    let r := forecaster historical_data periods in
    (PROPHET_AVAILABLE = false
     \/ (forall rows,
           historical_data = Some rows ->
           (List.length (TimeSeries.clean rows) < 10)%nat
           \/ prophet (TimeSeries.clean rows) periods = None
           \/ prophet (TimeSeries.clean rows) periods = Some []) ->
     r = simple historical_data periods)
    /\ Forall (fun pt => 0 <= Forecast.predicted_price pt
                         /\ 0 <= Forecast.lower_bound pt)
              (TimeSeries.forecast r)
    /\ (TimeSeries.model r = Some "Prophet" ->
        PROPHET_AVAILABLE = true
        /\ TimeSeries.forecast r <> []
        /\ Forall (fun pt => 0 <= Forecast.upper_bound pt)
                  (TimeSeries.forecast r)).
Proof.
  intros historical_data periods r.
  split; [|split; [apply forecaster_points_nonneg|]].
  - unfold r, TimeSeries.predict_with_prophet.
    intros [-> | H]; [reflexivity|].
    destruct PROPHET_AVAILABLE; [|reflexivity]. simpl.
    destruct historical_data as [rows|]; [|reflexivity].
    destruct (H rows eq_refl) as [L | [N | E]].
    + apply Nat.ltb_lt in L. now rewrite L.
    + rewrite N. now destruct (List.length _ <? 10)%nat.
    + rewrite E. now destruct (List.length _ <? 10)%nat.
  - unfold r, TimeSeries.predict_with_prophet.
    pose proof (simple_model_linear historical_data periods) as S.
    destruct PROPHET_AVAILABLE; cbn [negb];
      [|intros M; now apply S in M].
    destruct historical_data as [rows|]; [|intros M; now apply S in M].
    destruct (List.length (TimeSeries.clean rows) <? 10)%nat;
      [intros M; now apply S in M|].
    destruct (prophet _ _) as [future|]; [|intros M; now apply S in M].
    destruct future as [|row future]; [intros M; now apply S in M|].
    simpl. intros _. split; [reflexivity|]. split; [discriminate|].
    constructor; [apply prophet_point_nonneg|].
    apply Forall_map, Forall_forall. intros row' _.
    apply prophet_point_nonneg.
Qed.

(** The frame that [get_sneaker_price_history] builds has a date on every
    row, so its complete rows are its rows with a price. *)
Lemma clean_dated (averages : list (option Q)) :
  TimeSeries.clean (map (TimeSeries.Build_Row true) averages)
  = TimeSeries.dropna averages
  /\ TimeSeries.dropna
       (map TimeSeries.y (map (TimeSeries.Build_Row true) averages))
     = TimeSeries.dropna averages.
Proof.
  unfold TimeSeries.clean.
  assert (F : filter TimeSeries.ds (map (TimeSeries.Build_Row true) averages)
              = map (TimeSeries.Build_Row true) averages).
  { induction averages as [|a l IH]; simpl; [reflexivity | now rewrite IH]. }
  rewrite F, map_map. simpl. rewrite map_id. now split.
Qed.

(** X16.  When the price history of a world is read from the data set,
    a sneaker with fewer than five dated average prices gives the
    ensemble no forecast source, and so does a missing data set or an
    unknown sneaker.  A forecast source that does come out of it has a
    30-day price that is not negative and records the number of order
    dates. *)
Theorem history_to_forecast_source :
  forall (data : TimeSeries.Dataset) (w : World.t) (name : string)
         (retail : Q),
    World.get_sneaker_price_history w name
    = Some (TimeSeries.get_sneaker_price_history np_sqrt polyfit normal
              PROPHET_AVAILABLE prophet data name) ->
    ((List.length (TimeSeries.dropna (TimeSeries.daily_average data name))
      < 5)%nat ->
     predict_with_prophet w name retail = None)
    /\ (TimeSeries.present data = false
        \/ TimeSeries.sales_found data name = false ->
        predict_with_prophet w name retail = None)
    /\ (forall p,
          predict_with_prophet w name retail = Some p ->
          (exists price,
             Prophet.predicted_price_30d p = Some price /\ 0 <= price)
          /\ Prophet.historical_data_points p
             = List.length (TimeSeries.daily_average data name)).
Proof.
  intros data w name retail Hw.
  unfold predict_with_prophet. rewrite Hw.
  destruct (String.eqb name "") eqn:En.
  { split; [reflexivity|]. split; [reflexivity | discriminate]. }
  unfold TimeSeries.get_sneaker_price_history. rewrite En.
  destruct (TimeSeries.present data); simpl.
  2:{ split; [reflexivity|]. split; [reflexivity | discriminate]. }
  destruct (TimeSeries.sales_found data name); simpl.
  2:{ split; [reflexivity|]. split; [reflexivity | discriminate]. }
  set (frame := Some (map (TimeSeries.Build_Row true)
                          (TimeSeries.daily_average data name))).
  pose proof (forecaster_points_nonneg frame 30) as N.
  destruct (clean_dated (TimeSeries.daily_average data name)) as [C1 C2].
  split; [|split].
  - intros L.
    assert (E : TimeSeries.forecast (forecaster frame 30) = []).
    { unfold TimeSeries.predict_with_prophet, TimeSeries.simple_forecast,
        frame.
      rewrite C1, C2.
      assert (L5 : (List.length
                      (TimeSeries.dropna (TimeSeries.daily_average data name))
                    <? 5)%nat = true) by (apply Nat.ltb_lt; lia).
      assert (L10 : (List.length
                       (TimeSeries.dropna
                          (TimeSeries.daily_average data name))
                     <? 10)%nat = true) by (apply Nat.ltb_lt; lia).
      rewrite L5, L10. now destruct PROPHET_AVAILABLE. }
    now rewrite E.
  - intros [H | H]; discriminate.
  - intros p.
    destruct (TimeSeries.forecast (forecaster frame 30)) as [|pt rest] eqn:E;
      simpl; [discriminate|].
    intros [= <-]. simpl. split; [|reflexivity].
    unfold last_item.
    destruct (nth_error (pt :: rest) (List.length (pt :: rest) - 1))
      as [lastpt|] eqn:El.
    + exists (Forecast.predicted_price lastpt). split; [reflexivity|].
      apply nth_error_In in El.
      rewrite Forall_forall in N. now apply N.
    + apply nth_error_None in El. simpl in El. lia.
Qed.

End ForecastFacts.

Lemma history_to_forecast_witness :
  exists p,
    predict_with_prophet stockx_world "Yeezy" 220 = Some p
    /\ Prophet.historical_data_points p = 6%nat.
Proof.
  destruct (predict_with_prophet stockx_world "Yeezy" 220) as [p|] eqn:E;
    [|discriminate E].
  exists p. split; [reflexivity|].
  exact (proj2 (proj2 (proj2
           (history_to_forecast_source sqrt6 (fun _ => (2, 300))
              (fun _ _ => 0) false (fun _ _ => None)
              (TimeSeries.Build_Dataset true (fun _ => true)
                 (fun _ => [Some 300; Some 302; None; Some 304; Some 306;
                            Some 308]))
              stockx_world "Yeezy" 220 eq_refl)) p E)).
Defined.

(** ** Word sentiment *)

Lemma round_integer (k : Z) (n : nat) : Py.round (inject_Z k) n == inject_Z k.
Proof.
  unfold Py.round.
  pose proof (scale_positive n) as S.
  rewrite (round_half_even_compat
             (inject_Z k * inject_Z (10 ^ Z.of_nat n))
             (inject_Z (k * 10 ^ Z.of_nat n)))
    by (now rewrite inject_Z_mult).
  assert (E : Py.round_half_even (inject_Z (k * 10 ^ Z.of_nat n))
              = (k * 10 ^ Z.of_nat n)%Z).
  { unfold Py.round_half_even. rewrite Qfloor_Z.
    assert (C : (inject_Z (k * 10 ^ Z.of_nat n)
                 - inject_Z (k * 10 ^ Z.of_nat n) ?= 1 # 2) = Lt).
    { apply (proj1 (Qlt_alt _ _)).
      generalize (inject_Z (k * 10 ^ Z.of_nat n)). intros z. lra. }
    now rewrite C. }
  rewrite E, inject_Z_mult. field.
  intros Z0. rewrite Z0 in S. now apply Qlt_irrefl in S.
Qed.

Lemma round_between (lo hi : Z) (x : Q) (n : nat) :
  inject_Z lo <= x <= inject_Z hi ->
  inject_Z lo <= Py.round x n <= inject_Z hi.
Proof.
  intros [L U]. split.
  - rewrite <- (round_integer lo n). now apply round_mono.
  - rewrite <- (round_integer hi n). now apply round_mono.
Qed.

Lemma word_sets_disjoint (w : string) :
  LiveSentimentAnalyzer.member w LiveSentimentAnalyzer.POSITIVE = true ->
  LiveSentimentAnalyzer.member w LiveSentimentAnalyzer.NEGATIVE = false.
Proof.
  unfold LiveSentimentAnalyzer.member at 1. intros H.
  apply existsb_exists in H as (x & Hin & E).
  apply String.eqb_eq in E. subst x.
  assert (F : Forall (fun x => LiveSentimentAnalyzer.member
                                 x LiveSentimentAnalyzer.NEGATIVE = false)
                     LiveSentimentAnalyzer.POSITIVE)
    by (repeat constructor).
  rewrite Forall_forall in F. now apply F.
Qed.

Lemma counts_within_words (words : list string) :
  (LiveSentimentAnalyzer.count_in LiveSentimentAnalyzer.POSITIVE words
   + LiveSentimentAnalyzer.count_in LiveSentimentAnalyzer.NEGATIVE words
   <= List.length words)%nat.
Proof.
  unfold LiveSentimentAnalyzer.count_in.
  induction words as [|w words IH]; [simpl; lia|].
  cbn [filter List.length].
  destruct (LiveSentimentAnalyzer.member w LiveSentimentAnalyzer.POSITIVE)
    eqn:P.
  - rewrite (word_sets_disjoint w P). cbn [List.length]. lia.
  - destruct (LiveSentimentAnalyzer.member w LiveSentimentAnalyzer.NEGATIVE);
      cbn [List.length]; lia.
Qed.

(** The unrounded sentiment of [p] positive and [n] negative words. *)
Lemma sentiment_ratio (p n : nat) :
  let P := inject_Z (Z.of_nat p) in
  let N := inject_Z (Z.of_nat n) in
  let s := if (p + n =? 0)%nat
           then 0
           else (P - N) / inject_Z (Z.of_nat (p + n)) in
  -1 <= s <= 1
  /\ (0.1 < s <-> (11 * n < 9 * p)%nat)
  /\ (s < -0.1 <-> (11 * p < 9 * n)%nat)
  /\ (n = 0%nat -> (0 < p)%nat -> s == 1)
  /\ (p = 0%nat -> (0 < n)%nat -> s == -1).
Proof.
  intros P N s.
  assert (HP : 0 <= P)
    by (unfold P; change 0 with (inject_Z 0); rewrite <- Zle_Qle; lia).
  assert (HN : 0 <= N)
    by (unfold N; change 0 with (inject_Z 0); rewrite <- Zle_Qle; lia).
  assert (Q1 : (11 * n < 9 * p)%nat <-> 11 * N < 9 * P).
  { unfold P, N. change 11 with (inject_Z 11). change 9 with (inject_Z 9).
    rewrite <- !inject_Z_mult, <- Zlt_Qlt. lia. }
  assert (Q2 : (11 * p < 9 * n)%nat <-> 11 * P < 9 * N).
  { unfold P, N. change 11 with (inject_Z 11). change 9 with (inject_Z 9).
    rewrite <- !inject_Z_mult, <- Zlt_Qlt. lia. }
  assert (Q3 : n = 0%nat -> N == 0) by (intros ->; reflexivity).
  assert (Q4 : p = 0%nat -> P == 0) by (intros ->; reflexivity).
  assert (Q5 : (0 < p)%nat -> 0 < P).
  { intros H. unfold P. change 0 with (inject_Z 0). rewrite <- Zlt_Qlt. lia. }
  assert (Q6 : (0 < n)%nat -> 0 < N).
  { intros H. unfold N. change 0 with (inject_Z 0). rewrite <- Zlt_Qlt. lia. }
  unfold s. destruct (p + n =? 0)%nat eqn:E.
  - apply Nat.eqb_eq in E.
    split; [lra|]. repeat split; intros; try lia; lra.
  - apply Nat.eqb_neq in E.
    assert (T : inject_Z (Z.of_nat (p + n)) == P + N).
    { unfold P, N. now rewrite Nat2Z.inj_add, inject_Z_plus. }
    assert (TP : 0 < P + N).
    { rewrite <- T. change 0 with (inject_Z 0). rewrite <- Zlt_Qlt. lia. }
    rewrite T.
    set (q := (P - N) / (P + N)).
    assert (Hq : q * (P + N) == P - N) by (unfold q; field; lra).
    rewrite Q1, Q2.
    split; [split; nra|].
    split; [split; intros; nra|].
    split; [split; intros; nra|].
    split; intros H1 H2.
    + rewrite (Q3 H1) in *. specialize (Q5 H2). nra.
    + rewrite (Q4 H1) in *. specialize (Q6 H2). nra.
Qed.

Lemma analyze_words_scores (words : list string) :
  -1 <= LiveSentimentAnalyzer.sentiment_score
          (LiveSentimentAnalyzer.analyze_words words) <= 1.
Proof.
  unfold LiveSentimentAnalyzer.analyze_words.
  cbn [LiveSentimentAnalyzer.sentiment_score].
  apply (round_between (-1) 1). apply sentiment_ratio.
Qed.

Lemma analyze_words_neutral (words : list string) :
  LiveSentimentAnalyzer.positive_words
    (LiveSentimentAnalyzer.analyze_words words) = 0%nat ->
  LiveSentimentAnalyzer.negative_words
    (LiveSentimentAnalyzer.analyze_words words) = 0%nat ->
  LiveSentimentAnalyzer.sentiment_score
    (LiveSentimentAnalyzer.analyze_words words) == 0.
Proof.
  unfold LiveSentimentAnalyzer.analyze_words.
  cbn [LiveSentimentAnalyzer.sentiment_score
       LiveSentimentAnalyzer.positive_words
       LiveSentimentAnalyzer.negative_words].
  intros -> ->. apply round_zero.
Qed.

(** X17.  The sentiment score of a text lies in [[-1, 1]].  No word
    counts as both positive and negative, so the two counts together
    never exceed the number of words.  A text without sentiment words
    scores zero and is neutral, one with only positive words scores one,
    one with only negative words minus one; and the label is positive
    exactly when nine times the positive count exceeds eleven times the
    negative count, negative exactly the other way round. *)
Theorem analyze_words_bounds :
  forall words : list string,
    let r := LiveSentimentAnalyzer.analyze_words words in
    let p := LiveSentimentAnalyzer.positive_words r in
    let n := LiveSentimentAnalyzer.negative_words r in
    -1 <= LiveSentimentAnalyzer.sentiment_score r <= 1
    /\ (p + n <= List.length words)%nat
    /\ (p = 0%nat -> n = 0%nat ->
        LiveSentimentAnalyzer.sentiment_score r == 0
        /\ LiveSentimentAnalyzer.label r = "neutral")
    /\ (n = 0%nat -> (0 < p)%nat ->
        LiveSentimentAnalyzer.sentiment_score r == 1)
    /\ (p = 0%nat -> (0 < n)%nat ->
        LiveSentimentAnalyzer.sentiment_score r == -1)
    /\ (LiveSentimentAnalyzer.label r = "positive"
        <-> (11 * n < 9 * p)%nat)
    /\ (LiveSentimentAnalyzer.label r = "negative"
        <-> (11 * p < 9 * n)%nat).
Proof.
  intros words r p n.
  subst p n r. unfold LiveSentimentAnalyzer.analyze_words.
  cbn [LiveSentimentAnalyzer.sentiment_score
       LiveSentimentAnalyzer.positive_words
       LiveSentimentAnalyzer.negative_words LiveSentimentAnalyzer.label].
  set (p := LiveSentimentAnalyzer.count_in LiveSentimentAnalyzer.POSITIVE
                                           words).
  set (n := LiveSentimentAnalyzer.count_in LiveSentimentAnalyzer.NEGATIVE
                                           words).
  pose proof (sentiment_ratio p n) as (B & Hpos & Hneg & Hone & Hmin).
  set (s := if (p + n =? 0)%nat then 0 else _) in *.
  split; [apply (round_between (-1) 1); exact B|].
  split; [apply counts_within_words|].
  split.
  { intros Hp Hn. assert (E : s = 0) by (unfold s; now rewrite Hp, Hn).
    rewrite E. split; [apply round_zero | reflexivity]. }
  split.
  { intros Hn Hp. rewrite (round_compat s 1) by now apply Hone.
    apply (round_integer 1). }
  split.
  { intros Hp Hn. rewrite (round_compat s (-1)) by now apply Hmin.
    apply (round_integer (-1)). }
  rewrite <- Hpos, <- Hneg.
  destruct (Py.gt s 0.1) eqn:G.
  - apply gt_true in G. split; split; intros; try discriminate; try lra.
    reflexivity.
  - apply gt_false in G. destruct (Py.lt s (-0.1)) eqn:L.
    + apply lt_true in L. split; split; intros; try discriminate; try lra.
      reflexivity.
    + apply lt_false in L. split; split; intros; try discriminate; lra.
Qed.

Lemma mean_between (lo hi : Q) (xs : list Q) :
  xs <> [] ->
  Forall (fun x => lo <= x <= hi) xs ->
  lo <= np_mean xs <= hi.
Proof.
  intros Hne H. unfold np_mean. rewrite sum_sumQ.
  assert (S : lo * inject_Z (Z.of_nat (List.length xs)) <= sumQ xs
              <= hi * inject_Z (Z.of_nat (List.length xs))).
  { clear Hne. induction H as [|x xs Hx _ IH].
    - unfold sumQ. simpl. change (inject_Z 0) with 0. lra.
    - cbn [sumQ fold_right List.length]. fold (sumQ xs).
      rewrite Nat2Z.inj_succ, <- Z.add_1_r, inject_Z_plus.
      change (inject_Z 1) with 1. lra. }
  assert (L : 0 < inject_Z (Z.of_nat (List.length xs))).
  { change 0 with (inject_Z 0). rewrite <- Zlt_Qlt.
    destruct xs; [congruence | simpl; lia]. }
  split; [apply Qle_shift_div_l | apply Qle_shift_div_r]; tauto.
Qed.

(** X18.  The average sentiment over a set of posts lies in [[-1, 1]],
    and is zero when there is no post. *)
Theorem avg_sentiment_bounds :
  forall posts : list (list string),
    -1 <= LiveSentimentAnalyzer.avg_sentiment posts <= 1
    /\ (posts = [] -> LiveSentimentAnalyzer.avg_sentiment posts = 0)
    /\ ((forall words, In words posts ->
           LiveSentimentAnalyzer.positive_words
             (LiveSentimentAnalyzer.analyze_words words) = 0%nat
           /\ LiveSentimentAnalyzer.negative_words
                (LiveSentimentAnalyzer.analyze_words words) = 0%nat) ->
        LiveSentimentAnalyzer.avg_sentiment posts == 0).
Proof.
  intros posts. split; [|split].
  - unfold LiveSentimentAnalyzer.avg_sentiment.
    destruct posts as [|post posts]; [lra|].
    apply (round_between (-1) 1). apply mean_between; [discriminate|].
    apply Forall_map, Forall_forall. intros words _.
    apply (analyze_words_scores words).
  - intros ->. reflexivity.
  - intros H. unfold LiveSentimentAnalyzer.avg_sentiment.
    destruct posts as [|post posts]; [reflexivity|].
    rewrite (round_compat _ 0); [apply round_zero|].
    assert (B : 0 <= np_mean
                       (map (fun words =>
                               LiveSentimentAnalyzer.sentiment_score
                                 (LiveSentimentAnalyzer.analyze_words words))
                            (post :: posts)) <= 0).
    { apply mean_between; [discriminate|].
      apply Forall_map, Forall_forall. intros words Hin.
      destruct (H words Hin) as [Hp Hn].
      pose proof (analyze_words_neutral words Hp Hn). lra. }
    lra.
Qed.

(** ** Loading *)

Lemma lookup_optional (key key' : string) (file : option Model)
    (models : list (string * Model)) :
  lookup key (optional_model key' file models)
  = match lookup key models with
    | Some m => Some m
    | None => if String.eqb key key' then file else None
    end.
Proof.
  unfold optional_model.
  destruct file as [m|].
  - induction models as [|[k v] models IH]; simpl.
    + now destruct (String.eqb key key').
    + destruct (String.eqb key k); [reflexivity | exact IH].
  - destruct (lookup key models); [reflexivity|].
    now destruct (String.eqb key key').
Qed.

(** X1.  Loading succeeds exactly when the random forest, the gradient
    boosting model, both encoders, the scaler, the feature columns and
    the training metadata all load; the two linear models are optional.
    A loaded predictor holds each model that loaded under its own key.
    When the random forest does not load, no model is kept at all.  A
    predictor that is not loaded answers every request with the "Models
    not loaded" failure, so a request that succeeds met a loaded
    predictor; and a request succeeds exactly when the predictor is
    loaded, its values have the types the code converts, and the LLM
    answer, when there is one, has them too. *)
Theorem load_models_loaded_iff :
  forall files : Files.t,
    let p := load_models files in
    (loaded p = true
     <-> Files.random_forest_model files <> None
         /\ Files.gradient_boosting_model files <> None
         /\ Files.brand_encoder files <> None
         /\ Files.region_encoder files <> None
         /\ Files.scaler files <> None
         /\ Files.feature_columns files = true
         /\ Files.training_metadata files = true)
    /\ (loaded p = true ->
        lookup "random_forest" (models p) = Files.random_forest_model files
        /\ lookup "gradient_boosting" (models p)
           = Files.gradient_boosting_model files
        /\ lookup "linear_regression" (models p)
           = Files.linear_regression_model files
        /\ lookup "ridge_regression" (models p)
           = Files.ridge_regression_model files)
    /\ (Files.random_forest_model files = None -> models p = [])
    /\ (forall (np_sqrt : Q -> Q) w data s t g,
          (loaded p = false ->
           predict_best_price np_sqrt p w data s t g
           = Failure "Models not loaded. Run train_model.py first.")
          /\ (success (predict_best_price np_sqrt p w data s t g) = true ->
              loaded p = true)
          /\ success (predict_best_price np_sqrt p w data s t g)
             = loaded p && well_typed data
               && Groq.well_typed (groq_answer p w data g)).
Proof.
  intros files p. subst p. unfold load_models.
  destruct files as [rf gb lr ridge brand region sc fc md]. simpl.
  split; [|split; [|split]].
  - destruct rf, gb, brand, region as [[re rc]|], sc, fc, md; simpl;
      (split; [intros H; try discriminate; repeat split; congruence
              | intros (? & ? & ? & ? & ? & ? & ?); congruence]).
  - destruct rf as [rf|]; [|discriminate].
    destruct gb as [gb|]; [|discriminate].
    destruct brand as [brand|]; [|discriminate].
    destruct region as [[re rc]|]; [|discriminate].
    destruct sc as [sc|]; [|discriminate]. simpl. intros _.
    rewrite !lookup_optional. simpl. destruct lr, ridge; now repeat split.
  - intros ->. reflexivity.
  - intros np_sqrt w data s t g.
    split; [apply predict_best_price_unloaded|].
    rewrite predict_best_price_success.
    split; [|reflexivity].
    intros H. apply andb_prop in H. destruct H as [H _].
    apply andb_prop in H. now destruct H.
Qed.

(** ** The singleton *)

(** X2.  The first call creates the predictor from the files it finds
    and every later call reuses it, whatever the files have become: the
    second answer is that of the first predictor, so a service whose
    first load failed keeps answering "Models not loaded" even after the
    files are restored. *)
Theorem singleton_keeps_first_load :
  forall (np_sqrt : Q -> Q) (files1 files2 : Files.t) (w1 w2 : World.t)
         (d1 d2 : Request.t) (s1 t1 g1 s2 t2 g2 : bool),
    let first :=
      Service.predict_best_price np_sqrt files1 None w1 d1 s1 t1 g1 in
    let second :=
      Service.predict_best_price np_sqrt files2 (snd first) w2 d2 s2 t2 g2 in
    snd first = Some (load_models files1)
    /\ snd second = snd first
    /\ fst second
       = predict_best_price np_sqrt (load_models files1) w2 d2 s2 t2 g2
    /\ (loaded (load_models files1) = false ->
        fst second = Failure "Models not loaded. Run train_model.py first.").
Proof.
  intros np_sqrt files1 files2 w1 w2 d1 d2 s1 t1 g1 s2 t2 g2 first second.
  subst second first. unfold Service.predict_best_price. simpl.
  repeat split. intros H. unfold predict_best_price. now rewrite H.
Qed.

Lemma singleton_witness :
  fst (Service.predict_best_price sqrt6 full_files
         (snd (Service.predict_best_price sqrt6 broken_files None
                 silent_world demo_request true true true))
         silent_world demo_request false false false)
  = Failure "Models not loaded. Run train_model.py first.".
Proof.
  apply (singleton_keeps_first_load sqrt6 broken_files full_files
           silent_world silent_world demo_request demo_request
           true true true false false false).
  reflexivity.
Defined.

(** ** The endpoints *)

(** X20.  [POST /predict-best-price] answers 400 exactly when the body is
    null, another false value, or an object with no key, and then leaves
    the singleton alone.  It answers 200 exactly when the body is an
    object with a key, the predictor is loaded, the values of the request
    have the types the code converts and so has the LLM answer, if any.
    It answers 500 in every other case: a body that cannot be read, a
    true value that is not an object, a predictor that is not loaded, an
    ill-typed value or an ill-typed LLM answer.  On an object whose three
    flags are false the quick endpoint gives the same answer; on a true
    value that is not an object the full endpoint fails before it reaches
    the predictor, while the quick endpoint hands it to the predictor and
    reports its failure. *)
Theorem endpoint_status :
  forall (np_sqrt : Q -> Q) (files : Files.t)
         (instance : option EnsemblePricePredictor) (w : World.t)
         (data : Body.json),
    let answer := App.predict_best_price np_sqrt files instance w data in
    let predictor := fst (Service.get_predictor files instance) in
    let typed d :=
      loaded predictor
      && well_typed (Body.request d)
      && Groq.well_typed
           (groq_answer predictor w (Body.request d)
                        (or_default (Body.include_groq d) true)) in
    (Http.status (fst answer) = 400%nat
     <-> data = Body.Null
         \/ (exists message, data = Body.Other false message)
         \/ exists d, data = Body.Object d /\ Body.empty d = true)
    /\ (Http.status (fst answer) = 400%nat ->
        answer = (Http.mk 400 (Http.Error "No data provided"), instance))
    /\ (Http.status (fst answer) = 200%nat
        <-> exists d,
              data = Body.Object d /\ Body.empty d = false
              /\ typed d = true)
    /\ (Http.status (fst answer) = 500%nat
        <-> (exists message, data = Body.Unreadable message)
            \/ (exists message, data = Body.Other true message)
            \/ exists d,
                 data = Body.Object d /\ Body.empty d = false
                 /\ typed d = false)
    /\ (forall d,
          data = Body.Object d ->
          Body.include_sentiment d = Some false ->
          Body.include_trends d = Some false ->
          Body.include_groq d = Some false ->
          App.predict_best_price_quick np_sqrt files instance w data
          = answer)
    /\ (forall message,
          data = Body.Other true message ->
          answer = (Http.mk 500 (Http.Error message), instance)
          /\ App.predict_best_price_quick np_sqrt files instance w data
             = (Http.mk 500
                  (Http.Prediction
                     (Failure
                        (if loaded predictor then message
                         else "Models not loaded. Run train_model.py first."))),
                snd (Service.get_predictor files instance))).
Proof.
  intros np_sqrt files instance w data answer predictor typed.
  subst answer predictor typed.
  unfold App.predict_best_price, App.predict_best_price_quick,
    Service.predict_best_price.
  destruct data as [|d|[|] message|message].
  - cbn [fst snd Http.status].
    split; [split; [intros _; now left | reflexivity]|].
    split; [reflexivity|].
    split; [split; [discriminate | intros (d & ? & _); discriminate]|].
    split;
      [split;
       [discriminate
       | intros [(? & ?) | [(? & ?) | (? & ? & _)]]; discriminate]|].
    split; [intros d [=] | intros m [=]].
  - destruct (Body.empty d) eqn:E.
    { cbn [fst snd Http.status].
      split; [split; [intros _; right; right; now exists d | reflexivity]|].
      split; [reflexivity|].
      split;
        [split; [discriminate | intros (d' & [= <-] & ? & _); congruence]|].
      split;
        [split;
         [discriminate
         | intros [(? & ?) | [(? & ?) | (d' & [= <-] & ? & _)]];
           [discriminate | discriminate | congruence]]|].
      split; [intros d' _ _ _ _; reflexivity | intros m [=]]. }
    destruct (Service.get_predictor files instance) as [p inst'] eqn:G.
    cbn [fst snd].
    rewrite (predict_best_price_success np_sqrt p w (Body.request d)).
    destruct (loaded p && well_typed (Body.request d)
              && Groq.well_typed
                   (groq_answer p w (Body.request d)
                                (or_default (Body.include_groq d) true)))
      eqn:T; cbn [fst snd Http.status].
    + split; [split; [discriminate|]|].
      { intros [? | [(? & ?) | (d' & [= <-] & ?)]];
          [discriminate | discriminate | congruence]. }
      split; [discriminate|].
      split; [split; [intros _; now exists d | reflexivity]|].
      split;
        [split;
         [discriminate
         | intros [(? & ?) | [(? & ?) | (d' & [= <-] & _ & ?)]];
           [discriminate | discriminate | congruence]]|].
      split; [|intros m [=]].
      intros d' [= <-] Hs Ht Hg. rewrite Hg in T. rewrite Hs, Ht, Hg.
      cbn [or_default] in T |- *.
      rewrite predict_best_price_success, T. reflexivity.
    + split; [split; [discriminate|]|].
      { intros [? | [(? & ?) | (d' & [= <-] & ?)]];
          [discriminate | discriminate | congruence]. }
      split; [discriminate|].
      split;
        [split; [discriminate | intros (d' & [= <-] & _ & ?); congruence]|].
      split; [split; [intros _; right; right; now exists d | reflexivity]|].
      split; [|intros m [=]].
      intros d' [= <-] Hs Ht Hg. rewrite Hg in T. rewrite Hs, Ht, Hg.
      cbn [or_default] in T |- *.
      rewrite predict_best_price_success, T. reflexivity.
  - cbn [fst snd Http.status].
    split; [split; [discriminate|]|].
    { intros [? | [(? & ?) | (? & ? & _)]]; discriminate. }
    split; [discriminate|].
    split; [split; [discriminate | intros (d & ? & _); discriminate]|].
    split; [split; [intros _; right; left; now exists message | reflexivity]|].
    split; [intros d [=]|].
    intros m [= <-]. split; [reflexivity|].
    destruct (Service.get_predictor files instance) as [p inst'].
    cbn [fst snd]. now destruct (loaded p).
  - cbn [fst snd Http.status].
    split; [split; [intros _; right; left; now exists message | reflexivity]|].
    split; [reflexivity|].
    split; [split; [discriminate | intros (d & ? & _); discriminate]|].
    split;
      [split;
       [discriminate
       | intros [(? & ?) | [(? & ?) | (? & ? & _)]]; discriminate]|].
    split; [intros d [=] | intros m [=]].
  - cbn [fst snd Http.status].
    split; [split; [discriminate|]|].
    { intros [? | [(? & ?) | (? & ? & _)]]; discriminate. }
    split; [discriminate|].
    split; [split; [discriminate | intros (d & ? & _); discriminate]|].
    split; [split; [intros _; left; now exists message | reflexivity]|].
    split; [intros d [=] | intros m [=]].
Qed.




(** X22.  A batch entry is labelled and priced by other defaults than
    the prediction it reports: for a loaded predictor and a sneaker whose
    values have the types the code converts, without a retail price the
    prediction is made for 220 while the entry shows 0, and without the
    key [sneaker_name] the entry shows "Unknown" while the predictor
    falls back on the key [name]. *)
Theorem batch_entry_defaults :
  forall (np_sqrt : Q -> Q) (p : EnsemblePricePredictor) (w : World.t)
         (sneaker : Request.t),
    loaded p = true ->
    Request.ill_typed sneaker = None ->
    Request.retail_price sneaker = None ->
    Request.sneaker_name sneaker = None ->
    exists result rec,
      predict_best_price np_sqrt p w sneaker false false false
      = Success (or_default (Request.name sneaker) "") 220 result rec
      /\ App.batch_item np_sqrt p w sneaker
         = ItemOk "Unknown" 0
                  (Ensemble.best_predicted_price result)
                  (Ensemble.price_change_percent result)
                  (Recommendation.action rec)
                  (Ensemble.overall_confidence result)
      /\ Ensemble.price_change result
         = Py.round (final_price_of
                       (ensemble_price
                          (predict_with_ml_models p
                             (prepare_features p w sneaker))
                          (predict_with_prophet
                             w (or_default (Request.name sneaker) "") 220)
                          220)
                       disabled_sentiment disabled_trends None - 220) 2.
Proof.
  intros np_sqrt p w sneaker Hl Ht Hr Hn.
  unfold App.batch_item.
  rewrite (predict_best_price_typed np_sqrt p w sneaker false false false
             None Hl Ht eq_refl).
  unfold request_name. rewrite Hr, Hn. simpl or_default.
  eexists. eexists. split; [reflexivity|]. split; reflexivity.
Qed.

Lemma batch_entry_witness :
  exists result rec,
    predict_best_price sqrt6 demo_predictor silent_world bare_request
                       false false false
    = Success "Dunk Low" 220 result rec
    /\ App.batch_item sqrt6 demo_predictor silent_world bare_request
       = ItemOk "Unknown" 0
                (Ensemble.best_predicted_price result)
                (Ensemble.price_change_percent result)
                (Recommendation.action rec)
                (Ensemble.overall_confidence result).
Proof.
  destruct (batch_entry_defaults sqrt6 demo_predictor silent_world
              bare_request eq_refl eq_refl eq_refl eq_refl)
    as (result & rec & H1 & H2 & _).
  exists result, rec. split; assumption.
Defined.

(** ** How a request ends *)

(** X23.  A request ends in one of four ways.  It succeeds, for a loaded
    predictor, a request and an LLM answer of the types the code
    converts, and then echoes the name and the retail price it read, 220
    when none is given.  Or it fails: with "Models not loaded" when the
    predictor is not loaded, before anything is read; with the message
    of the conversion that raised, on an ill-typed value of the request;
    or with the message of the fusion, on an ill-typed answer of the LLM
    that was asked for. *)
Theorem request_outcomes :
  forall (np_sqrt : Q -> Q) self w data
         (include_sentiment include_trends include_groq : bool),
    match predict_best_price np_sqrt self w data include_sentiment
                             include_trends include_groq with
    | Success sneaker_name retail_price result rec =>
        loaded self = true
        /\ Request.ill_typed data = None
        /\ Groq.well_typed (groq_answer self w data include_groq) = true
        /\ sneaker_name = request_name data
        /\ retail_price = or_default (Request.retail_price data) 220
        /\ rec = get_recommendation (Ensemble.price_change_percent result)
                                    (Ensemble.overall_confidence result)
    | Failure message =>
        (loaded self = false
         /\ message = "Models not loaded. Run train_model.py first.")
        \/ (loaded self = true /\ Request.ill_typed data = Some message)
        \/ (loaded self = true /\ Request.ill_typed data = None
            /\ include_groq = true
            /\ groq_answer self w data include_groq
               = Some (Groq.IllTyped message))
    end.
Proof.
  intros np_sqrt self w data include_sentiment include_trends include_groq.
  destruct (loaded self) eqn:L.
  2:{ rewrite predict_best_price_unloaded by exact L. left. now split. }
  destruct (Request.ill_typed data) as [message|] eqn:T.
  { rewrite (predict_best_price_ill_typed np_sqrt self w data
               include_sentiment include_trends include_groq message L T).
    right. left. now split. }
  destruct (groq_answer self w data include_groq) as [[analysis|message]|]
    eqn:G.
  - rewrite (predict_best_price_typed np_sqrt self w data include_sentiment
               include_trends include_groq (Some analysis) L T G).
    now repeat split.
  - destruct include_groq; [|discriminate G].
    rewrite (predict_best_price_ill_typed_answer np_sqrt self w data
               include_sentiment include_trends message L T G).
    right. right. now repeat split.
  - rewrite (predict_best_price_typed np_sqrt self w data include_sentiment
               include_trends include_groq None L T G).
    now repeat split.
Qed.
